(** * CentriPy: the shape geometry engine of [centripy.py]

    A shallow embedding of the pure parts of [centripy.py] (coordinate
    mapping, the seven shape classes, the tagged-record codec) and of the
    event handlers of [CentroidApp] as functions on an explicit application
    state.

    Conventions of the model.
    - Python floats are idealised as real numbers ([R]); rounding, NaN and
      infinities are outside the model.  [math.pi] is [PI], [math.dist] is
      the Euclidean distance through [sqrt].  The one property that is
      about rounding itself, the round trip through the coordinate mapper,
      is stated on the binary64 operations ([Binary64]).
    - The records read from a file are typed: a parameter is a number or a
      list of points, and [well_sorted] says that it has the sort its key
      announces.  Python stores a value of the other sort where the model
      raises, so what is stated about decoding errors assumes
      [well_sorted].
    - A Python exception is a [Raise] in the [result] monad; a handler that
      raises leaves the state it had not yet mutated.
    - The drawing surface, the dialogs and the file system are external:
      the canvas, the message boxes and [json.load] are not modelled, only
      what they hand to or receive from the handlers (and the geometry of
      the outline a shape is drawn with). *)

From Stdlib Require Import Reals Lra ZArith List String.
From Stdlib Require PrimFloat.
From stdpp Require Import gmap strings.

Open Scope R_scope.

(** ** Exceptions *)

Inductive exn : Set := ValueError | TypeError | KeyError | IndexError.

Inductive result (A : Type) : Type :=
| Ok (a : A)
| Raise (e : exn).
Arguments Ok {A} a.
Arguments Raise {A} e.

#[global] Instance result_ret : MRet result := fun _ a => Ok a.
#[global] Instance result_bind : MBind result := fun _ _ f m =>
  match m with
  | Ok a => f a
  | Raise e => Raise e
  end.
#[global] Instance result_fmap : FMap result := fun _ _ f m =>
  match m with
  | Ok a => Ok (f a)
  | Raise e => Raise e
  end.

(** Comparisons of floats used as conditions. *)
#[global] Instance Rle_decision : RelDecision Rle := Rle_dec.
#[global] Instance Rlt_decision : RelDecision Rlt := Rlt_dec.

(** ** Coordinate mapper *)

Definition CANVAS_WIDTH : R := 800.
Definition CANVAS_HEIGHT : R := 600.

Definition to_canvas_coords (x y : R) : R * R :=
  let cx := (CANVAS_WIDTH / 2) + x in
  let cy := (CANVAS_HEIGHT / 2) - y in
  (cx, cy).

Definition to_math_coords (cx cy : R) : R * R :=
  let x := cx - (CANVAS_WIDTH / 2) in
  let y := (CANVAS_HEIGHT / 2) - cy in
  (x, y).

(** *** The mapper on binary64 numbers

    The same two functions on the floats of the interpreter, for the
    properties that depend on rounding. *)
Module Binary64.
Import PrimFloat.
#[local] Open Scope float_scope.

(** A Python [int] operand converted to [float]; exact below 2^53. *)
Fixpoint float_of_pos (p : positive) : float :=
  match p with
  | xH => 1
  | xO q => 2 * float_of_pos q
  | xI q => 2 * float_of_pos q + 1
  end.

Definition float_of_Z (z : Z) : float :=
  match z with
  | Z0 => 0
  | Zpos p => float_of_pos p
  | Zneg p => - float_of_pos p
  end.

Definition CANVAS_WIDTH : float := 800.
Definition CANVAS_HEIGHT : float := 600.

Definition to_canvas_coords (x y : float) : float * float :=
  let cx := (CANVAS_WIDTH / 2) + x in
  let cy := (CANVAS_HEIGHT / 2) - y in
  (cx, cy).

Definition to_math_coords (cx cy : float) : float * float :=
  let x := cx - (CANVAS_WIDTH / 2) in
  let y := (CANVAS_HEIGHT / 2) - cy in
  (x, y).

(** Python's [==] on two pairs of floats. *)
Definition same_pair (p q : float * float) : bool :=
  eqb p.1 q.1 && eqb p.2 q.2.

(** Both round trips at the point (z, z). *)
Definition round_trips (z : Z) : bool :=
  let v := float_of_Z z in
  let c := to_canvas_coords v v in
  let m := to_math_coords v v in
  same_pair (to_math_coords c.1 c.2) (v, v)
  && same_pair (to_canvas_coords m.1 m.2) (v, v).

(** The integers [lo], [lo + 1], ..., [lo + n - 1]. *)
Definition span (lo : Z) (n : nat) : list Z :=
  map (fun k => (lo + Z.of_nat k)%Z) (seq 0 n).
End Binary64.

(** ** Shapes *)

Inductive Shape : Type :=
| LineShape (x1 y1 x2 y2 : R)
| RectangleShape (x1 y1 x2 y2 : R)
| CircleShape (cx cy r : R)
| TriangleShape (x1 y1 x2 y2 x3 y3 : R)
| HalfCircleShape (cx cy r : R)
| QuarterCircleShape (cx cy r : R)
| PolygonShape (points : list (R * R)).

(** [self.points[i]]; every index the loops use is in range. *)
Definition point_at (points : list (R * R)) (i : nat) : R * R :=
  nth i points (0, 0).

(** [x1 * y2 - x2 * y1] for the edge leaving vertex [i]. *)
Definition edge_cross (points : list (R * R)) (i : nat) : R :=
  let n := length points in
  let '(x1, y1) := point_at points i in
  let '(x2, y2) := point_at points ((i + 1) mod n) in
  x1 * y2 - x2 * y1.

(** The accumulation loop of [PolygonShape.calculate_area]. *)
Definition shoelace (points : list (R * R)) : R :=
  fold_left (fun area i => area + edge_cross points i)
            (seq 0 (length points)) 0.

Definition calculate_area (s : Shape) : R :=
  match s with
  | LineShape _ _ _ _ => 0
  | RectangleShape x1 y1 x2 y2 => Rabs (x2 - x1) * Rabs (y2 - y1)
  | CircleShape _ _ r => PI * r ^ 2
  | TriangleShape x1 y1 x2 y2 x3 y3 =>
      Rabs ((x1 * (y2 - y3) + x2 * (y3 - y1) + x3 * (y1 - y2)) / 2)
  | HalfCircleShape _ _ r => 0.5 * PI * r ^ 2
  | QuarterCircleShape _ _ r => 0.25 * PI * r ^ 2
  | PolygonShape points => Rabs (shoelace points) / 2
  end.

(** The accumulation loop of [PolygonShape.calculate_centroid]. *)
Definition centroid_sums (points : list (R * R)) : R * R :=
  fold_left
    (fun '(cx, cy) i =>
       let n := length points in
       let '(x1, y1) := point_at points i in
       let '(x2, y2) := point_at points ((i + 1) mod n) in
       let cross := x1 * y2 - x2 * y1 in
       (cx + (x1 + x2) * cross, cy + (y1 + y2) * cross))
    (seq 0 (length points)) (0, 0).

Definition calculate_centroid (s : Shape) : R * R :=
  match s with
  | LineShape x1 y1 x2 y2 => ((x1 + x2) / 2, (y1 + y2) / 2)
  | RectangleShape x1 y1 x2 y2 => ((x1 + x2) / 2, (y1 + y2) / 2)
  | CircleShape cx cy _ => (cx, cy)
  | TriangleShape x1 y1 x2 y2 x3 y3 =>
      ((x1 + x2 + x3) / 3, (y1 + y2 + y3) / 3)
  | HalfCircleShape cx cy r =>
      let offset := - r + (4 * r) / (3 * PI) in
      (cx, cy + offset)
  | QuarterCircleShape cx cy r =>
      let offset := (4 * r) / (3 * PI) in
      (cx + offset, cy + offset)
  | PolygonShape points =>
      let A := calculate_area s in
      if decide (Rabs A < 1e-12) then (0, 0)
      else
        let '(cx, cy) := centroid_sums points in
        (cx / (6 * A), cy / (6 * A))
  end.

(** Python's [min] and [max] of a list: [ValueError] on the empty list. *)
Definition py_min (l : list R) : result R :=
  match l with
  | [] => Raise ValueError
  | x :: rest => Ok (fold_left Rmin rest x)
  end.

Definition py_max (l : list R) : result R :=
  match l with
  | [] => Raise ValueError
  | x :: rest => Ok (fold_left Rmax rest x)
  end.

Definition BBox : Type := R * R * R * R.

Definition bounding_box (s : Shape) : result BBox :=
  match s with
  | LineShape x1 y1 x2 y2
  | RectangleShape x1 y1 x2 y2 =>
      let xmin := Rmin x1 x2 in
      let xmax := Rmax x1 x2 in
      let ymin := Rmin y1 y2 in
      let ymax := Rmax y1 y2 in
      Ok (xmin, ymin, xmax, ymax)
  | CircleShape cx cy r
  | HalfCircleShape cx cy r
  | QuarterCircleShape cx cy r =>
      let x_min := cx - r in
      let x_max := cx + r in
      let y_min := cy - r in
      let y_max := cy + r in
      Ok (x_min, y_min, x_max, y_max)
  | TriangleShape x1 y1 x2 y2 x3 y3 =>
      let xs := [x1; x2; x3] in
      let ys := [y1; y2; y3] in
      xmin ← py_min xs; ymin ← py_min ys;
      xmax ← py_max xs; ymax ← py_max ys;
      Ok (xmin, ymin, xmax, ymax)
  | PolygonShape points =>
      let xs := map fst points in
      let ys := map snd points in
      xmin ← py_min xs; ymin ← py_min ys;
      xmax ← py_max xs; ymax ← py_max ys;
      Ok (xmin, ymin, xmax, ymax)
  end.

(** [Shape.is_point_inside]: membership in the bounding box, bounds
    included. *)
Definition is_point_inside (s : Shape) (x y : R) : result bool :=
  '(xmin, ymin, xmax, ymax) ← bounding_box s;
  Ok (bool_decide (xmin <= x <= xmax) && bool_decide (ymin <= y <= ymax)).

(** ** Serialization codec *)

(** A value of the [params] dictionary: a number, or the point list of a
    polygon. *)
Inductive pval : Type :=
| PNum (r : R)
| PPoints (points : list (R * R)).

(** A value of the tagged record itself: the type string or the [params]
    dictionary. *)
Inductive field : Type :=
| FStr (s : string)
| FParams (params : gmap string pval).

Definition to_dict (s : Shape) : gmap string field :=
  match s with
  | LineShape x1 y1 x2 y2 =>
      {[ "type" := FStr "LineShape";
         "params" := FParams {[ "x1" := PNum x1; "y1" := PNum y1;
                                "x2" := PNum x2; "y2" := PNum y2 ]} ]}
  | RectangleShape x1 y1 x2 y2 =>
      {[ "type" := FStr "RectangleShape";
         "params" := FParams {[ "x1" := PNum x1; "y1" := PNum y1;
                                "x2" := PNum x2; "y2" := PNum y2 ]} ]}
  | CircleShape cx cy r =>
      {[ "type" := FStr "CircleShape";
         "params" := FParams {[ "cx" := PNum cx; "cy" := PNum cy;
                                "r" := PNum r ]} ]}
  | TriangleShape x1 y1 x2 y2 x3 y3 =>
      {[ "type" := FStr "TriangleShape";
         "params" := FParams {[ "x1" := PNum x1; "y1" := PNum y1;
                                "x2" := PNum x2; "y2" := PNum y2;
                                "x3" := PNum x3; "y3" := PNum y3 ]} ]}
  | HalfCircleShape cx cy r =>
      {[ "type" := FStr "HalfCircleShape";
         "params" := FParams {[ "cx" := PNum cx; "cy" := PNum cy;
                                "r" := PNum r ]} ]}
  | QuarterCircleShape cx cy r =>
      {[ "type" := FStr "QuarterCircleShape";
         "params" := FParams {[ "cx" := PNum cx; "cy" := PNum cy;
                                "r" := PNum r ]} ]}
  | PolygonShape points =>
      {[ "type" := FStr "PolygonShape";
         "params" := FParams {[ "points" := PPoints points ]} ]}
  end.

(** Calling a constructor with the keywords of a dictionary (the double
    star): Python raises [TypeError]
    when a parameter is missing or a keyword is unexpected.  The shapes of
    the model are typed, so a value of the wrong sort is rejected here too
    (Python would store it and fail at its first use). *)
Definition kw_arity (kwargs : gmap string pval) (n : nat) : result unit :=
  if decide (size kwargs = n) then Ok () else Raise TypeError.

Definition kw_num (kwargs : gmap string pval) (name : string) : result R :=
  match kwargs !! name with
  | Some (PNum r) => Ok r
  | _ => Raise TypeError
  end.

Definition kw_points (kwargs : gmap string pval) (name : string)
  : result (list (R * R)) :=
  match kwargs !! name with
  | Some (PPoints points) => Ok points
  | _ => Raise TypeError
  end.

Definition corners_kw (mk : R -> R -> R -> R -> Shape)
  (kwargs : gmap string pval) : result Shape :=
  _ ← kw_arity kwargs 4;
  x1 ← kw_num kwargs "x1"; y1 ← kw_num kwargs "y1";
  x2 ← kw_num kwargs "x2"; y2 ← kw_num kwargs "y2";
  Ok (mk x1 y1 x2 y2).

Definition round_kw (mk : R -> R -> R -> Shape)
  (kwargs : gmap string pval) : result Shape :=
  _ ← kw_arity kwargs 3;
  cx ← kw_num kwargs "cx"; cy ← kw_num kwargs "cy"; r ← kw_num kwargs "r";
  Ok (mk cx cy r).

Definition triangle_kw (kwargs : gmap string pval) : result Shape :=
  _ ← kw_arity kwargs 6;
  x1 ← kw_num kwargs "x1"; y1 ← kw_num kwargs "y1";
  x2 ← kw_num kwargs "x2"; y2 ← kw_num kwargs "y2";
  x3 ← kw_num kwargs "x3"; y3 ← kw_num kwargs "y3";
  Ok (TriangleShape x1 y1 x2 y2 x3 y3).

Definition polygon_kw (kwargs : gmap string pval) : result Shape :=
  _ ← kw_arity kwargs 1;
  points ← kw_points kwargs "points";
  Ok (PolygonShape points).

(** [data["params"]]: [KeyError] when the key is absent; a string cannot be
    unpacked into keywords. *)
Definition params_of (data : gmap string field)
  : result (gmap string pval) :=
  match data !! "params" with
  | Some (FParams params) => Ok params
  | Some (FStr _) => Raise TypeError
  | None => Raise KeyError
  end.

(** [shape_type == name] for [shape_type = data.get("type")]. *)
Definition type_is (shape_type : option field) (name : string) : bool :=
  match shape_type with
  | Some (FStr t) => bool_decide (t = name)
  | _ => false
  end.

(** [Shape.from_dict]; [Ok None] is the [return None] of an unknown tag. *)
Definition from_dict (data : gmap string field) : result (option Shape) :=
  let shape_type := data !! "type" in
  if type_is shape_type "LineShape" then
    Some <$> (params_of data ≫= corners_kw LineShape)
  else if type_is shape_type "RectangleShape" then
    Some <$> (params_of data ≫= corners_kw RectangleShape)
  else if type_is shape_type "CircleShape" then
    Some <$> (params_of data ≫= round_kw CircleShape)
  else if type_is shape_type "TriangleShape" then
    Some <$> (params_of data ≫= triangle_kw)
  else if type_is shape_type "HalfCircleShape" then
    Some <$> (params_of data ≫= round_kw HalfCircleShape)
  else if type_is shape_type "QuarterCircleShape" then
    Some <$> (params_of data ≫= round_kw QuarterCircleShape)
  else if type_is shape_type "PolygonShape" then
    Some <$> (params_of data ≫= polygon_kw)
  else
    Ok None.

(** ** Composite centroid *)

(** The accumulation loop of [calculate_composite_centroid]:
    [(total_area, sum_xA, sum_yA)]. *)
Definition composite_sums (shapes : list Shape) : R * R * R :=
  fold_left
    (fun '(total_area, sum_xA, sum_yA) s =>
       let A := calculate_area s in
       let '(cx, cy) := calculate_centroid s in
       (total_area + A, sum_xA + cx * A, sum_yA + cy * A))
    shapes (0, 0, 0).

(** What the centroid label is set to: [None] is the text
    "Composite Centroid: (N/A, N/A)", [Some (x, y)] the two coordinates
    (their formatting to two decimals is not modelled). *)
Definition calculate_composite_centroid (shapes : list Shape)
  : option (R * R) :=
  match shapes with
  | [] => None
  | _ =>
      let '(total_area, sum_xA, sum_yA) := composite_sums shapes in
      if decide (Rabs total_area < 1e-9) then None
      else
        let comp_x := sum_xA / total_area in
        let comp_y := sum_yA / total_area in
        Some (comp_x, comp_y)
  end.

(** ** Application state *)

(** The entries of the shape combobox (read-only, so [current_tool] is one
    of them or [None]). *)
Inductive Tool : Set :=
| Line | Rectangle | Circle | Triangle | HalfCircle | QuarterCircle.

#[global] Instance Tool_eq_dec : EqDecision Tool.
Proof. solve_decision. Defined.

(** The dashed canvas item of a live preview, in device coordinates. *)
Inductive CanvasItem : Type :=
| DashedLine (c1 c2 : R * R)
| DashedRectangle (c1 c2 : R * R)
| DashedOval (c1 c2 : R * R)
| DashedArc (c1 c2 : R * R) (start extent : Z).

Record CentroidApp : Type := mkApp {
  shapes : list Shape;
  current_tool : option Tool;
  click_points : list (R * R);
  preview_item : option CanvasItem;
  delete_mode : bool;
  centroid_label : option (R * R)
}.

(** [CentroidApp.__init__]. *)
Definition init_app : CentroidApp :=
  mkApp [] None [] None false None.

Definition with_shapes (app : CentroidApp) (l : list Shape) : CentroidApp :=
  mkApp l (current_tool app) (click_points app) (preview_item app)
        (delete_mode app) (centroid_label app).

(** [redraw_all]: the axes and shapes are redrawn (external) and the label
    is recomputed. *)
Definition redraw_all (app : CentroidApp) : CentroidApp :=
  mkApp (shapes app) (current_tool app) (click_points app)
        (preview_item app) (delete_mode app)
        (calculate_composite_centroid (shapes app)).

Definition toggle_delete_mode (app : CentroidApp) : CentroidApp :=
  mkApp (shapes app) (current_tool app) (click_points app)
        (preview_item app) (negb (delete_mode app)) (centroid_label app).

(** [shape_var] is the current selection of the combobox. *)
Definition activate_shape_tool (app : CentroidApp) (shape_var : Tool)
  : CentroidApp :=
  mkApp (shapes app) (Some shape_var) [] None false (centroid_label app).

(** [list.pop(idx)] for a non-negative index. *)
Definition pop {A : Type} (l : list A) (idx : nat) : result (A * list A) :=
  match l !! idx with
  | Some x => Ok (x, delete idx l)
  | None => Raise IndexError
  end.

(** The loop of [on_left_click] in delete mode, over
    [enumerate(reversed(self.shapes), start=i)]. *)
Fixpoint delete_scan (app : CentroidApp) (reversed : list Shape) (i : nat)
  (mx my : R) : result CentroidApp :=
  match reversed with
  | [] => Ok app
  | shape :: rest =>
      inside ← is_point_inside shape mx my;
      if (inside : bool) then
        let idx := (length (shapes app) - i)%nat in
        '(removed_shape, remaining) ← pop (shapes app) idx;
        Ok (redraw_all (with_shapes app remaining))
      else delete_scan app rest (S i) mx my
  end.

Definition on_left_click (app : CentroidApp) (event_x event_y : Z)
  : result CentroidApp :=
  let '(mx, my) := to_math_coords (IZR event_x) (IZR event_y) in
  if delete_mode app then
    delete_scan app (rev (shapes app)) 1 mx my
  else
    Ok (mkApp (shapes app) (current_tool app)
              (click_points app ++ [(mx, my)])
              (preview_item app) (delete_mode app) (centroid_label app)).

(** [math.dist] on two points of the plane. *)
Definition dist (p q : R * R) : R :=
  sqrt ((fst p - fst q) ^ 2 + (snd p - snd q) ^ 2).

Definition draw_temporary_shape (shape_type : Tool) (x1 y1 x2 y2 : R)
  : option CanvasItem :=
  let c1 := to_canvas_coords x1 y1 in
  let c2 := to_canvas_coords x2 y2 in
  match shape_type with
  | Line => Some (DashedLine c1 c2)
  | Rectangle =>
      let c1_min := to_canvas_coords (Rmin x1 x2) (Rmin y1 y2) in
      let c2_max := to_canvas_coords (Rmax x1 x2) (Rmax y1 y2) in
      Some (DashedRectangle c1_min c2_max)
  | Circle | HalfCircle | QuarterCircle =>
      let r := dist (x1, y1) (x2, y2) in
      let c1_min := to_canvas_coords (x1 - r) (y1 - r) in
      let c2_max := to_canvas_coords (x1 + r) (y1 + r) in
      match shape_type with
      | Circle => Some (DashedOval c1_min c2_max)
      | HalfCircle => Some (DashedArc c1_min c2_max 180 180)
      | _ => Some (DashedArc c1_min c2_max 270 90)
      end
  | Triangle => None
  end.

Definition needs_2_points (t : Tool) : bool :=
  match t with
  | Triangle => false
  | _ => true
  end.

Definition on_drag (app : CentroidApp) (event_x event_y : Z) : CentroidApp :=
  match current_tool app with
  | None => app
  | Some tool =>
      if negb (needs_2_points tool) then app
      else
        match click_points app with
        | [] => app
        | (x1, y1) :: _ =>
            let '(x2, y2) := to_math_coords (IZR event_x) (IZR event_y) in
            mkApp (shapes app) (current_tool app) (click_points app)
                  (draw_temporary_shape tool x1 y1 x2 y2)
                  (delete_mode app) (centroid_label app)
        end
  end.

Definition needed_points (shape_type : Tool) : nat :=
  match shape_type with
  | Line => 2
  | Rectangle => 2
  | Circle => 2
  | Triangle => 3
  | HalfCircle => 2
  | QuarterCircle => 2
  end.

(** The tuple unpacking of [self.click_points]: [ValueError] unless the
    list has exactly the expected length. *)
Definition unpack2 (l : list (R * R)) : result ((R * R) * (R * R)) :=
  match l with
  | [p1; p2] => Ok (p1, p2)
  | _ => Raise ValueError
  end.

Definition unpack3 (l : list (R * R))
  : result ((R * R) * (R * R) * (R * R)) :=
  match l with
  | [p1; p2; p3] => Ok (p1, p2, p3)
  | _ => Raise ValueError
  end.

(** The shape built by [on_left_release] for the active tool. *)
Definition construct_shape (shape_type : Tool) (click_points : list (R * R))
  : result Shape :=
  match shape_type with
  | Line =>
      '((x1, y1), (x2, y2)) ← unpack2 click_points;
      Ok (LineShape x1 y1 x2 y2)
  | Rectangle =>
      '((x1, y1), (x2, y2)) ← unpack2 click_points;
      Ok (RectangleShape x1 y1 x2 y2)
  | Circle =>
      '((cx, cy), (rx, ry)) ← unpack2 click_points;
      let r := dist (cx, cy) (rx, ry) in
      Ok (CircleShape cx cy r)
  | HalfCircle =>
      '((cx, cy), (rx, ry)) ← unpack2 click_points;
      let r := dist (cx, cy) (rx, ry) in
      Ok (HalfCircleShape cx cy r)
  | QuarterCircle =>
      '((cx, cy), (rx, ry)) ← unpack2 click_points;
      let r := dist (cx, cy) (rx, ry) in
      Ok (QuarterCircleShape cx cy r)
  | Triangle =>
      '((x1, y1), (x2, y2), (x3, y3)) ← unpack3 click_points;
      Ok (TriangleShape x1 y1 x2 y2 x3 y3)
  end.

Definition on_left_release (app : CentroidApp) : result CentroidApp :=
  match current_tool app with
  | None => Ok app
  | Some shape_type =>
      if decide (length (click_points app) < needed_points shape_type)%nat
      then Ok app
      else
        new_shape ← construct_shape shape_type (click_points app);
        Ok (redraw_all
              (mkApp (shapes app ++ [new_shape]) None [] None
                     (delete_mode app) (centroid_label app)))
  end.

(** ** Import *)

(** What the user is told at the end of [import_shapes]: the number of
    imported shapes together with the tags printed as unknown, or the
    failure box with the exception. *)
Inductive ImportReport : Type :=
| ImportSuccessful (imported : nat) (unknown : list (option field))
| ImportFailed (e : exn).

(** The [for shape_data in ...] loop: the shapes decoded so far and the
    tags reported as unknown so far. *)
Fixpoint import_loop (shapes_data : list (gmap string field))
  (imported_shapes : list Shape) (unknown : list (option field))
  : result (list Shape * list (option field)) :=
  match shapes_data with
  | [] => Ok (imported_shapes, unknown)
  | shape_data :: rest =>
      shape ← from_dict shape_data;
      match shape with
      | Some s => import_loop rest (imported_shapes ++ [s]) unknown
      | None =>
          import_loop rest imported_shapes
                      (unknown ++ [shape_data !! "type"])
      end
  end.

(** [import_shapes] once a file was chosen and parsed;
    [shapes_data] is [data.get("shapes", [])]. *)
Definition import_shapes (app : CentroidApp)
  (shapes_data : list (gmap string field)) : CentroidApp * ImportReport :=
  match import_loop shapes_data [] [] with
  | Ok (imported_shapes, unknown) =>
      (redraw_all (with_shapes app (shapes app ++ imported_shapes)),
       ImportSuccessful (length imported_shapes) unknown)
  | Raise e => (app, ImportFailed e)
  end.

(** ** The coordinates dialog *)

(** The two entries of the dialog after Python's own parsing:
    [points_var] is [int(points_var.get().strip())] and [coords_var] is
    [coords_var.get().strip().split()] with every part split on the comma
    and every piece passed through [float]; [None] stands for the
    [ValueError] of [int] or [float]. *)
Record DialogInput : Type := mkDialogInput {
  points_var : option Z;
  coords_var : list (list (option R))
}.

Inductive DialogOutcome : Type :=
| RequiresAtLeast4Points   (* "Requires at least 4 points." *)
| ExpectedPairs (n : Z) (got : nat)   (* "Expected n pairs, got m." *)
| EachPairMustBeXY   (* "Each pair must be x,y." *)
| InvalidInput   (* "Invalid input: ..." *)
| DialogDestroyed.   (* the shape was added and the dialog closed *)

(** The [for p in parts] loop of [on_submit]. *)
Fixpoint parse_pairs (parts : list (list (option R)))
  (points : list (R * R)) : DialogOutcome + list (R * R) :=
  match parts with
  | [] => inr points
  | xy :: rest =>
      match xy with
      | [fx; fy] =>
          match fx, fy with
          | Some x, Some y => parse_pairs rest (points ++ [(x, y)])
          | _, _ => inl InvalidInput
          end
      | _ => inl EachPairMustBeXY
      end
  end.

Definition on_submit (app : CentroidApp) (input : DialogInput)
  : CentroidApp * DialogOutcome :=
  match points_var input with
  | None => (app, InvalidInput)
  | Some n =>
      if decide (n <= 3)%Z then (app, RequiresAtLeast4Points)
      else
        let parts := coords_var input in
        if decide (Z.of_nat (length parts) ≠ n)
        then (app, ExpectedPairs n (length parts))
        else
          match parse_pairs parts [] with
          | inl err => (app, err)
          | inr points =>
              let new_shape := PolygonShape points in
              (redraw_all (with_shapes app (shapes app ++ [new_shape])),
               DialogDestroyed)
          end
  end.

(** ** Event loop *)

Inductive Event : Type :=
| ActivateTool (shape_var : Tool)
| ToggleDelete
| LeftClick (x y : Z)
| Drag (x y : Z)
| LeftRelease
| Recalculate
| SubmitCoords (input : DialogInput).

(** A callback that raises is reported by the toolkit and the loop goes on
    with the state as the callback left it; the handlers here raise before
    they mutate anything. *)
Definition recover (app : CentroidApp) (r : result CentroidApp)
  : CentroidApp :=
  match r with
  | Ok app' => app'
  | Raise _ => app
  end.

Definition handle (app : CentroidApp) (ev : Event) : CentroidApp :=
  match ev with
  | ActivateTool shape_var => activate_shape_tool app shape_var
  | ToggleDelete => toggle_delete_mode app
  | LeftClick x y => recover app (on_left_click app x y)
  | Drag x y => on_drag app x y
  | LeftRelease => recover app (on_left_release app)
  | Recalculate => redraw_all app   (* the label is all that is kept of it *)
  | SubmitCoords input => fst (on_submit app input)
  end.

Definition run (app : CentroidApp) (evs : list Event) : CentroidApp :=
  fold_left handle evs app.

(** ** Export *)



(** ** Drawing of the outlines *)

(** The geometry of the outline item a shape's [draw] creates, in device
    coordinates (colour and width left out; the centroid cross is not
    part of it). *)
Inductive Outline : Type :=
| LineItem (c1 c2 : R * R)
| RectangleItem (c1 c2 : R * R)
| OvalItem (c1 c2 : R * R)
| ArcItem (c1 c2 : R * R) (start extent : Z)
| PolygonItem (canvas_points : list R).

(** The first canvas call of each [draw] method. *)
Definition draw_outline (s : Shape) : Outline :=
  match s with
  | LineShape x1 y1 x2 y2 =>
      LineItem (to_canvas_coords x1 y1) (to_canvas_coords x2 y2)
  | RectangleShape x1 y1 x2 y2 =>
      let '(x_min, x_max) := (Rmin x1 x2, Rmax x1 x2) in
      let '(y_min, y_max) := (Rmin y1 y2, Rmax y1 y2) in
      RectangleItem (to_canvas_coords x_min y_min)
                    (to_canvas_coords x_max y_max)
  | CircleShape cx cy r =>
      OvalItem (to_canvas_coords (cx - r) (cy - r))
               (to_canvas_coords (cx + r) (cy + r))
  | TriangleShape x1 y1 x2 y2 x3 y3 =>
      let p1 := to_canvas_coords x1 y1 in
      let p2 := to_canvas_coords x2 y2 in
      let p3 := to_canvas_coords x3 y3 in
      PolygonItem [p1.1; p1.2; p2.1; p2.2; p3.1; p3.2]
  | HalfCircleShape cx cy r =>
      ArcItem (to_canvas_coords (cx - r) (cy - r))
              (to_canvas_coords (cx + r) (cy + r)) 180 180
  | QuarterCircleShape cx cy r =>
      ArcItem (to_canvas_coords (cx - r) (cy - r))
              (to_canvas_coords (cx + r) (cy + r)) 270 90
  | PolygonShape points =>
      PolygonItem
        (fold_left (fun canvas_points '(x, y) =>
                      let '(cx, cy) := to_canvas_coords x y in
                      canvas_points ++ [cx; cy])
                   points [])
  end.

(** The geometry of a preview item, its dash pattern left out. *)
Definition item_outline (item : CanvasItem) : Outline :=
  match item with
  | DashedLine c1 c2 => LineItem c1 c2
  | DashedRectangle c1 c2 => RectangleItem c1 c2
  | DashedOval c1 c2 => OvalItem c1 c2
  | DashedArc c1 c2 start extent => ArcItem c1 c2 start extent
  end.

(** ** Event loops for the properties *)




(** The event loop that stops at the first callback that raises. *)
Definition handle_strict (app : CentroidApp) (ev : Event)
  : result CentroidApp :=
  match ev with
  | LeftClick x y => on_left_click app x y
  | LeftRelease => on_left_release app
  | _ => Ok (handle app ev)
  end.

Fixpoint run_strict (app : CentroidApp) (evs : list Event)
  : result CentroidApp :=
  match evs with
  | [] => Ok app
  | ev :: rest => app' ← handle_strict app ev; run_strict app' rest
  end.

(** What the pointer and the toolbar deliver: a press of the left button,
    the drags while it is down and its release come together. *)
Inductive Gesture : Type :=
| Stroke (x y : Z) (moves : list (Z * Z))
| Button (shape_var : Tool)
| DeleteButton
| RecalculateButton
| Submit (input : DialogInput).

Definition gesture_events (g : Gesture) : list Event :=
  match g with
  | Stroke x y moves =>
      LeftClick x y :: map (fun m => Drag m.1 m.2) moves ++ [LeftRelease]
  | Button shape_var => [ActivateTool shape_var]
  | DeleteButton => [ToggleDelete]
  | RecalculateButton => [Recalculate]
  | Submit input => [SubmitCoords input]
  end.

Definition session_events (gs : list Gesture) : list Event :=
  concat (map gesture_events gs).

(** * Vocabulary of the properties *)

(** The parameters for which [bounding_box] is ordered: a radius that is
    not negative, a polygon with at least one point. *)
Definition bbox_regular (s : Shape) : Prop :=
  match s with
  | CircleShape _ _ r | HalfCircleShape _ _ r | QuarterCircleShape _ _ r =>
      0 <= r
  | PolygonShape points => points <> []
  | _ => True
  end.

Definition bbox_ordered (b : BBox) : Prop :=
  let '(xmin, ymin, xmax, ymax) := b in xmin <= xmax /\ ymin <= ymax.

(** The sum of [f] over a collection, as the formula writes it. *)
Definition sigma (f : Shape -> R) (shapes : list Shape) : R :=
  fold_right (fun s acc => f s + acc) 0 shapes.

Definition weighted_x (s : Shape) : R :=
  calculate_area s * (calculate_centroid s).1.
Definition weighted_y (s : Shape) : R :=
  calculate_area s * (calculate_centroid s).2.

Definition is_line (s : Shape) : Prop :=
  match s with
  | LineShape _ _ _ _ => True
  | _ => False
  end.

(** [bounding_box] returns for every shape but the polygon without
    points. *)
Definition has_bbox (s : Shape) : Prop := s <> PolygonShape [].

Definition contains (mx my : R) (s : Shape) : Prop :=
  is_point_inside s mx my = Ok true.
Definition misses (mx my : R) (s : Shape) : Prop :=
  is_point_inside s mx my = Ok false.

(** The Euclidean distance from (x1, y1) to (x2, y2). *)
Definition euclid (x1 y1 x2 y2 : R) : R :=
  sqrt ((x2 - x1) * (x2 - x1) + (y2 - y1) * (y2 - y1)).

(** The shape a commit is to build from the accumulated points: the two
    end points of a line, the two corners of a rectangle, the three
    vertices of a triangle, and for the circle family the first point as
    centre with the Euclidean distance to the second as radius. *)
Definition committed_shape (kind : Tool) (points : list (R * R))
  : option Shape :=
  match kind, points with
  | Line, [(x1, y1); (x2, y2)] => Some (LineShape x1 y1 x2 y2)
  | Rectangle, [(x1, y1); (x2, y2)] => Some (RectangleShape x1 y1 x2 y2)
  | Circle, [(cx, cy); (px, py)] =>
      Some (CircleShape cx cy (euclid cx cy px py))
  | HalfCircle, [(cx, cy); (px, py)] =>
      Some (HalfCircleShape cx cy (euclid cx cy px py))
  | QuarterCircle, [(cx, cy); (px, py)] =>
      Some (QuarterCircleShape cx cy (euclid cx cy px py))
  | Triangle, [(x1, y1); (x2, y2); (x3, y3)] =>
      Some (TriangleShape x1 y1 x2 y2 x3 y3)
  | _, _ => None
  end.

Definition known_tags : list string :=
  ["LineShape"; "RectangleShape"; "CircleShape"; "TriangleShape";
   "HalfCircleShape"; "QuarterCircleShape"; "PolygonShape"].

(** The record carries one of the seven variant strings as its type. *)
Definition recognized (data : gmap string field) : bool :=
  existsb (type_is (data !! "type")) known_tags.

Definition unrecognized (data : gmap string field) : bool :=
  negb (recognized data).

(** The record carries the type string and the [params] dictionary of the
    shape [s] (other keys of the record are never read). *)
Definition encodes (data : gmap string field) (s : Shape) : Prop :=
  data !! "type" = to_dict s !! "type" /\
  data !! "params" = to_dict s !! "params".

(** A circle-family shape with a radius that is not negative and, with it,
    an ordered bounding box; nothing is asked of the other variants. *)
Definition round_ok (s : Shape) : Prop :=
  match s with
  | CircleShape _ _ r | HalfCircleShape _ _ r | QuarterCircleShape _ _ r =>
      0 <= r /\ exists b, bounding_box s = Ok b /\ bbox_ordered b
  | _ => True
  end.

(** The text of a well-formed pair "x,y" after splitting and [float]. *)
Definition pair_text (p : R * R) : list (option R) := [Some p.1; Some p.2].


(** The points a shape is given by (none for the circle family). *)
Definition vertices (s : Shape) : list (R * R) :=
  match s with
  | LineShape x1 y1 x2 y2 => [(x1, y1); (x2, y2)]
  | RectangleShape x1 y1 x2 y2 => [(x1, y1); (x2, y2); (x1, y2); (x2, y1)]
  | TriangleShape x1 y1 x2 y2 x3 y3 => [(x1, y1); (x2, y2); (x3, y3)]
  | PolygonShape points => points
  | _ => []
  end.





(** The three edge terms of the shoelace and centroid formulas. *)
Definition cross (p q : R * R) : R := p.1 * q.2 - q.1 * p.2.

(** The exception of a recognized record: [KeyError] without the key
    "params", [TypeError] otherwise. *)
Definition decode_error (data : gmap string field) : exn :=
  match data !! "params" with
  | None => KeyError
  | Some _ => TypeError
  end.


Definition with_preview (app : CentroidApp) (item : option CanvasItem)
  : CentroidApp :=
  mkApp (shapes app) (current_tool app) (click_points app) item
        (delete_mode app) (centroid_label app).

(** Between two gestures an active tool still waits for a point. *)
Definition session_ok (app : CentroidApp) : Prop :=
  match current_tool app with
  | Some kind => (length (click_points app) < needed_points kind)%nat
  | None => True
  end.

(** While the button is down an active tool has at most its points. *)
Definition session_mid (app : CentroidApp) : Prop :=
  match current_tool app with
  | Some kind => (length (click_points app) <= needed_points kind)%nat
  | None => True
  end.

(** The press of a stroke in math coordinates. *)
Definition stroke_point (st : Z * Z * list (Z * Z)) : R * R :=
  to_math_coords (IZR st.1.1) (IZR st.1.2).

Definition stroke_gesture (st : Z * Z * list (Z * Z)) : Gesture :=
  Stroke st.1.1 st.1.2 st.2.

(** The hit test as a boolean: [true] when [is_point_inside] returns
    [True]. *)
Definition hit (mx my : R) (s : Shape) : bool :=
  match is_point_inside s mx my with
  | Ok true => true
  | _ => false
  end.

(** The parameters [to_dict] writes for a shape. *)
Definition params_dict (s : Shape) : gmap string pval :=
  match s with
  | LineShape x1 y1 x2 y2 | RectangleShape x1 y1 x2 y2 =>
      {[ "x1" := PNum x1; "y1" := PNum y1; "x2" := PNum x2; "y2" := PNum y2 ]}
  | CircleShape cx cy r | HalfCircleShape cx cy r
  | QuarterCircleShape cx cy r =>
      {[ "cx" := PNum cx; "cy" := PNum cy; "r" := PNum r ]}
  | TriangleShape x1 y1 x2 y2 x3 y3 =>
      {[ "x1" := PNum x1; "y1" := PNum y1; "x2" := PNum x2; "y2" := PNum y2;
         "x3" := PNum x3; "y3" := PNum y3 ]}
  | PolygonShape points => {[ "points" := PPoints points ]}
  end.

(** A parameter has the sort its key announces: a list of points under
    "points", a number under every other key. *)
Definition sorted_value (key : string) (v : pval) : Prop :=
  match v with
  | PNum _ => key <> "points"
  | PPoints _ => key = "points"
  end.

(** The records on which the typed decoding and Python's agree: every
    parameter has the sort of its key (nothing is asked when "params" is
    missing or is not a dictionary). *)
Definition well_sorted (data : gmap string field) : Prop :=
  match data !! "params" with
  | Some (FParams params) => map_Forall sorted_value params
  | _ => True
  end.


(** * Properties *)

(** ** Coordinate mapper *)

Module Binary64Facts.
Import PrimFloat.
#[local] Set Warnings "-inexact-float".
#[local] Open Scope float_scope.

Lemma in_span (lo z : Z) (n : nat) :
  (lo <= z < lo + Z.of_nat n)%Z -> In z (Binary64.span lo n).
Proof.
  intros Hz. unfold Binary64.span. apply in_map_iff.
  exists (Z.to_nat (z - lo)). split; [lia |]. apply in_seq. lia.
Qed.

(** Every integer from -2000 to 2000 makes both round trips. *)
Lemma round_trips_checked :
  forallb Binary64.round_trips (Binary64.span (-2000) 4001) = true.
Proof. vm_compute. reflexivity. Qed.

Lemma round_trips_in_range (z : Z) :
  (-2000 <= z <= 2000)%Z -> Binary64.round_trips z = true.
Proof.
  intros Hz. pose proof round_trips_checked as Hall.
  rewrite forallb_forall in Hall. apply Hall, in_span. lia.
Qed.

(** C9 as amended: [to_canvas_coords] is (W/2 + x, H/2 - y) and
    [to_math_coords] is (dx - W/2, H/2 - dy) for W = 800 and H = 600, in
    the binary64 arithmetic of the program; each undoes the other exactly
    (Python's [==]) on all integer coordinates of absolute value at most
    2000, which include every pixel of the 800 x 600 canvas and its image
    in math coordinates. *)
Theorem mapper_inverses_on_integers :
  (forall x y : float,
      Binary64.to_canvas_coords x y = (800 / 2 + x, 600 / 2 - y)) /\
  (forall dx dy : float,
      Binary64.to_math_coords dx dy = (dx - 800 / 2, 600 / 2 - dy)) /\
  (forall x y : Z,
      (-2000 <= x <= 2000)%Z -> (-2000 <= y <= 2000)%Z ->
      let p := (Binary64.float_of_Z x, Binary64.float_of_Z y) in
      let c := Binary64.to_canvas_coords p.1 p.2 in
      let m := Binary64.to_math_coords p.1 p.2 in
      Binary64.same_pair (Binary64.to_math_coords c.1 c.2) p = true /\
      Binary64.same_pair (Binary64.to_canvas_coords m.1 m.2) p = true).
Proof.
  split; [reflexivity | split; [reflexivity |]].
  intros x y Hx Hy p c m. subst p c m.
  pose proof (round_trips_in_range x Hx) as Hrx.
  pose proof (round_trips_in_range y Hy) as Hry.
  unfold Binary64.round_trips, Binary64.same_pair in Hrx, Hry.
  cbn [fst snd Binary64.to_canvas_coords Binary64.to_math_coords] in Hrx, Hry.
  apply andb_prop in Hrx as [Hx1 Hx2]. apply andb_prop in Hry as [Hy1 Hy2].
  apply andb_prop in Hx1 as [Hx1 _]. apply andb_prop in Hx2 as [Hx2 _].
  apply andb_prop in Hy1 as [_ Hy1]. clear Hy2.
  unfold Binary64.same_pair.
  cbn [fst snd Binary64.to_canvas_coords Binary64.to_math_coords].
  rewrite Hx1, Hx2, Hy1. split; reflexivity.
Qed.

(** The pixel (405, 295) and the math point it is mapped to. *)
Lemma mapper_inverses_on_integers_witness :
  let p := (Binary64.float_of_Z 405, Binary64.float_of_Z 295) in
  let c := Binary64.to_canvas_coords p.1 p.2 in
  let m := Binary64.to_math_coords p.1 p.2 in
  Binary64.same_pair (Binary64.to_math_coords c.1 c.2) p = true /\
  Binary64.same_pair (Binary64.to_canvas_coords m.1 m.2) p = true.
Proof.
  apply (proj2 (proj2 mapper_inverses_on_integers) 405%Z 295%Z); lia.
Defined.

(** C9 as stated fails: the math point (0.1, 0.2) comes back from the
    device as (0.10000000000002274, 0.19999999999998863). *)
Lemma mapper_round_trip_rounds :
  let c := Binary64.to_canvas_coords 0.1 0.2 in
  Binary64.to_math_coords c.1 c.2
  = (0.10000000000002274, 0.19999999999998863) /\
  Binary64.same_pair (Binary64.to_math_coords c.1 c.2) (0.1, 0.2) = false.
Proof. split; reflexivity. Qed.
End Binary64Facts.

(** ** Areas *)

Lemma Rabs_half_nonneg (a : R) : 0 <= Rabs a / 2.
Proof. pose proof (Rabs_pos a). lra. Qed.

Lemma disc_area_nonneg (k r : R) : 0 <= k -> 0 <= k * PI * r ^ 2.
Proof.
  intros Hk. pose proof PI_RGT_0 as Hpi. pose proof (pow2_ge_0 r) as Hr.
  apply Rmult_le_pos; [apply Rmult_le_pos|]; lra.
Qed.

(** C4: the area of every shape, of every variant and with any parameter
    values, is at least 0. *)
Theorem calculate_area_nonneg (s : Shape) : 0 <= calculate_area s.
Proof.
  destruct s as [| x1 y1 x2 y2 | cx cy r | | cx cy r | cx cy r | points];
    cbn [calculate_area].
  - lra.
  - apply Rmult_le_pos; apply Rabs_pos.
  - replace (PI * r ^ 2) with (1 * PI * r ^ 2) by lra.
    apply disc_area_nonneg; lra.
  - apply Rabs_pos.
  - apply disc_area_nonneg; lra.
  - apply disc_area_nonneg; lra.
  - apply Rabs_half_nonneg.
Qed.

(** ** Bounding boxes *)

Lemma fold_Rmin_le (l : list R) (x : R) : fold_left Rmin l x <= x.
Proof.
  revert x; induction l as [| a l IH]; intros x; cbn [fold_left].
  - lra.
  - etransitivity; [apply IH | apply Rmin_l].
Qed.

Lemma fold_Rmax_ge (l : list R) (x : R) : x <= fold_left Rmax l x.
Proof.
  revert x; induction l as [| a l IH]; intros x; cbn [fold_left].
  - lra.
  - etransitivity; [apply Rmax_l | apply IH].
Qed.

(** A non-empty list has a minimum and a maximum, in that order. *)
Lemma py_min_max (l : list R) :
  l <> [] ->
  exists lo hi, py_min l = Ok lo /\ py_max l = Ok hi /\ lo <= hi.
Proof.
  destruct l as [| x rest]; [congruence | intros _].
  exists (fold_left Rmin rest x), (fold_left Rmax rest x).
  repeat split; [].
  etransitivity; [apply fold_Rmin_le | apply fold_Rmax_ge].
Qed.

Lemma bbox_of_lists (xs ys : list R) :
  xs <> [] -> ys <> [] ->
  exists b,
    (xmin ← py_min xs; ymin ← py_min ys;
     xmax ← py_max xs; ymax ← py_max ys;
     Ok (xmin, ymin, xmax, ymax)) = Ok b /\ bbox_ordered b.
Proof.
  intros Hx Hy.
  destruct (py_min_max xs Hx) as (xlo & xhi & -> & -> & Hxo).
  destruct (py_min_max ys Hy) as (ylo & yhi & -> & -> & Hyo).
  exists (xlo, ylo, xhi, yhi). split; [reflexivity | split; assumption].
Qed.

(** C5 as amended: for a Line, a Rectangle, a Triangle, a Polygon with at
    least one point, and a Circle, HalfCircle or QuarterCircle whose radius
    is not negative, [bounding_box] returns (xmin, ymin, xmax, ymax) with
    xmin <= xmax and ymin <= ymax. *)
Theorem bounding_box_ordered (s : Shape) :
  bbox_regular s ->
  exists b, bounding_box s = Ok b /\ bbox_ordered b.
Proof.
  destruct s as [x1 y1 x2 y2 | x1 y1 x2 y2 | cx cy r | x1 y1 x2 y2 x3 y3
                | cx cy r | cx cy r | points];
    cbn [bbox_regular bounding_box]; intros Hreg.
  - eexists; split; [reflexivity |]. split; apply Rminmax.
  - eexists; split; [reflexivity |]. split; apply Rminmax.
  - eexists; split; [reflexivity |]. split; lra.
  - apply bbox_of_lists; discriminate.
  - eexists; split; [reflexivity |]. split; lra.
  - eexists; split; [reflexivity |]. split; lra.
  - apply bbox_of_lists; destruct points; cbn; congruence.
Qed.

Lemma bounding_box_ordered_witness :
  exists b, bounding_box (CircleShape 0 0 1) = Ok b /\ bbox_ordered b.
Proof. apply (bounding_box_ordered (CircleShape 0 0 1)). cbn. lra. Defined.

(** C5 as stated fails: a circle of radius -1, as a record read from a
    file can describe it, has the box (1, 1, -1, -1). *)
Lemma bounding_box_unordered :
  exists xmin ymin xmax ymax,
    bounding_box (CircleShape 0 0 (-1)) = Ok (xmin, ymin, xmax, ymax)
    /\ xmax < xmin /\ ymax < ymin.
Proof. do 4 eexists. split; [reflexivity |]. split; lra. Qed.

(** The box of a polygon without points does not exist: [min] raises. *)
Example bounding_box_no_points :
  bounding_box (PolygonShape []) = Raise ValueError.
Proof. reflexivity. Qed.

(** ** Codec round trip *)

(** C2: decoding the record that encodes a shape gives back the shape,
    same variant and same parameter values, for each of the seven
    variants. *)
Theorem from_dict_to_dict (s : Shape) : from_dict (to_dict s) = Ok (Some s).
Proof. destruct s; reflexivity. Qed.

(** ** Composite centroid *)

(** The loop started from any accumulators adds the three sums to them. *)
Lemma composite_loop (shapes : list Shape) (t sx sy : R) :
  fold_left
    (fun '(total_area, sum_xA, sum_yA) s =>
       let A := calculate_area s in
       let '(cx, cy) := calculate_centroid s in
       (total_area + A, sum_xA + cx * A, sum_yA + cy * A))
    shapes (t, sx, sy)
  = (t + sigma calculate_area shapes,
     sx + sigma weighted_x shapes,
     sy + sigma weighted_y shapes).
Proof.
  revert t sx sy; induction shapes as [| s rest IH]; intros t sx sy.
  - cbn. f_equal; [f_equal |]; lra.
  - cbn [fold_left]. rewrite (surjective_pairing (calculate_centroid s)).
    rewrite IH. unfold sigma, weighted_x, weighted_y. cbn [fold_right].
    f_equal; [f_equal |]; lra.
Qed.

Lemma composite_sums_sigma (shapes : list Shape) :
  composite_sums shapes
  = (sigma calculate_area shapes, sigma weighted_x shapes,
     sigma weighted_y shapes).
Proof.
  unfold composite_sums. rewrite composite_loop. f_equal; [f_equal |]; lra.
Qed.

Lemma sigma_area_lines (shapes : list Shape) :
  Forall is_line shapes -> sigma calculate_area shapes = 0.
Proof.
  induction 1 as [| s rest Hs _ IH]; [reflexivity |].
  cbn [sigma fold_right]. fold (sigma calculate_area rest). rewrite IH.
  destruct s; try contradiction. cbn. lra.
Qed.

Lemma composite_centroid_cases (shapes : list Shape) :
  calculate_composite_centroid shapes
  = match shapes with
    | [] => None
    | _ =>
        if decide (Rabs (sigma calculate_area shapes) < 1e-9) then None
        else Some (sigma weighted_x shapes / sigma calculate_area shapes,
                   sigma weighted_y shapes / sigma calculate_area shapes)
    end.
Proof.
  unfold calculate_composite_centroid. rewrite composite_sums_sigma.
  reflexivity.
Qed.

(** C1: for a non-empty collection whose total area is at least 1e-9 in
    absolute value the composite centroid is
    (sum(area * centroidX) / sum(area), sum(area * centroidY) / sum(area));
    for the empty collection, and whenever the total area is below 1e-9 in
    absolute value, as for a collection of Line shapes only, it is reported
    as not available. *)
Theorem composite_centroid_correct (shapes : list Shape) :
  (shapes <> [] -> 1e-9 <= Rabs (sigma calculate_area shapes) ->
   calculate_composite_centroid shapes
   = Some (sigma weighted_x shapes / sigma calculate_area shapes,
           sigma weighted_y shapes / sigma calculate_area shapes))
  /\ (shapes = [] \/ Rabs (sigma calculate_area shapes) < 1e-9 ->
      calculate_composite_centroid shapes = None)
  /\ (Forall is_line shapes -> calculate_composite_centroid shapes = None).
Proof.
  rewrite composite_centroid_cases.
  assert (Hsmall : Rabs (sigma calculate_area shapes) < 1e-9 ->
                   match shapes with
                   | [] => None
                   | _ => if decide (Rabs (sigma calculate_area shapes) < 1e-9)
                          then None
                          else Some (sigma weighted_x shapes
                                       / sigma calculate_area shapes,
                                     sigma weighted_y shapes
                                       / sigma calculate_area shapes)
                   end = None).
  { intros Hlt. destruct shapes; [reflexivity |].
    destruct (decide _); [reflexivity | contradiction]. }
  split; [| split].
  - intros Hne Hbig. destruct shapes; [congruence |].
    destruct (decide _); [lra | reflexivity].
  - intros [-> | Hlt]; [reflexivity | auto].
  - intros Hlines. apply Hsmall. rewrite sigma_area_lines by assumption.
    rewrite Rabs_R0. lra.
Qed.

(** A single rectangle with corners (0,0) and (10,10): total area 100,
    composite centroid (5,5). *)
Lemma square_sums :
  sigma calculate_area [RectangleShape 0 0 10 10] = 100
  /\ sigma weighted_x [RectangleShape 0 0 10 10] = 500
  /\ sigma weighted_y [RectangleShape 0 0 10 10] = 500.
Proof.
  unfold sigma, weighted_x, weighted_y. cbn.
  replace (10 - 0) with 10 by lra.
  rewrite (Rabs_right 10) by lra. repeat split; lra.
Qed.

Lemma composite_centroid_correct_witness :
  calculate_composite_centroid [RectangleShape 0 0 10 10] = Some (5, 5).
Proof.
  destruct square_sums as (Ha & Hx & Hy).
  destruct (composite_centroid_correct [RectangleShape 0 0 10 10])
    as [Hsome _].
  rewrite Hsome.
  - rewrite Ha, Hx, Hy. f_equal. f_equal; lra.
  - discriminate.
  - rewrite Ha. rewrite Rabs_right; lra.
Defined.

(** ** Deletion *)

Lemma has_bbox_defined (s : Shape) :
  has_bbox s -> exists b, bounding_box s = Ok b.
Proof.
  unfold has_bbox. destruct s as [| | | | | | points]; intros Hs;
    try (eexists; reflexivity).
  destruct points as [| [x y] rest]; [congruence |].
  eexists; reflexivity.
Qed.

Lemma pop_middle {A : Type} (l1 l2 : list A) (x : A) :
  pop (l1 ++ x :: l2) (length l1) = Ok (x, l1 ++ l2).
Proof.
  unfold pop. rewrite list_lookup_middle by reflexivity.
  rewrite delete_middle. reflexivity.
Qed.

Section Probe.
(** The probe of a click in delete mode, in math coordinates, and the
    application the click arrives at. *)
Variables (mx my : R) (app : CentroidApp).

Lemma is_point_inside_defined (s : Shape) :
  has_bbox s -> contains mx my s \/ misses mx my s.
Proof.
  intros Hs.
  destruct (has_bbox_defined s Hs) as ([[[xmin ymin] xmax] ymax] & Hb).
  unfold contains, misses, is_point_inside. rewrite Hb. cbn.
  destruct (_ && _); auto.
Qed.

(** The scan, started when [back] has already been passed over: either
    no remaining shape contains the point and nothing changes, or the
    last shape of the remaining ones that contains it is popped. *)
Lemma delete_scan_cases (reversed back : list Shape) :
  shapes app = rev reversed ++ back ->
  Forall has_bbox reversed ->
  (Forall (misses mx my) reversed /\
   delete_scan app reversed (S (length back)) mx my = Ok app)
  \/
  (exists pre s post,
      rev reversed = pre ++ s :: post /\
      contains mx my s /\ Forall (misses mx my) post /\
      delete_scan app reversed (S (length back)) mx my
      = Ok (redraw_all (with_shapes app (pre ++ post ++ back)))).
Proof.
  revert back.
  induction reversed as [| s rest IH]; intros back Hshapes Hbb.
  - left. split; [constructor | reflexivity].
  - apply Forall_cons in Hbb as [Hs Hrest].
    cbn [rev] in Hshapes. rewrite <- app_assoc in Hshapes.
    cbn [List.app] in Hshapes. cbn [delete_scan].
    destruct (is_point_inside_defined s Hs) as [Hin | Hout].
    + right. exists (rev rest), s, []. cbn [rev List.app].
      split; [reflexivity |]. split; [assumption |].
      split; [constructor |].
      rewrite Hin. cbn.
      replace (length (shapes app) - S (length back))%nat
        with (length (rev rest)).
      * rewrite Hshapes at 1. rewrite pop_middle. reflexivity.
      * rewrite Hshapes, length_app. cbn [length]. lia.
    + destruct (IH (s :: back) Hshapes Hrest)
        as [[Hall Hscan] | (pre & s' & post & Hrev & Hin & Hpost & Hscan)];
        cbn [length] in Hscan.
      * left. split; [constructor; assumption |].
        rewrite Hout. exact Hscan.
      * right. exists pre, s', (post ++ [s]). cbn [rev].
        split; [rewrite Hrev, <- app_assoc; reflexivity |].
        split; [assumption |].
        split; [apply Forall_app; split;
                [assumption | repeat constructor; assumption] |].
        rewrite Hout. cbn. rewrite Hscan.
        rewrite <- (app_assoc post). reflexivity.
Qed.
End Probe.

(** C6 as amended: for every collection in which no polygon is without
    points, in delete mode a click scans the collection from the most
    recently inserted shape backwards and removes exactly the first shape
    found whose bounding box contains the probe; when no shape contains it
    the collection is unchanged; delete mode stays on (and the construction
    session is untouched) in both cases. *)
Theorem delete_click_removes_topmost (app : CentroidApp) (event_x event_y : Z) :
  delete_mode app = true ->
  Forall has_bbox (shapes app) ->
  let probe := to_math_coords (IZR event_x) (IZR event_y) in
  exists app',
    on_left_click app event_x event_y = Ok app' /\
    delete_mode app' = true /\
    current_tool app' = current_tool app /\
    click_points app' = click_points app /\
    ((Forall (misses probe.1 probe.2) (shapes app) /\ app' = app)
     \/
     (exists pre s post,
         shapes app = pre ++ s :: post /\
         contains probe.1 probe.2 s /\
         Forall (misses probe.1 probe.2) post /\
         shapes app' = pre ++ post)).
Proof.
  intros Hmode Hbb probe. unfold on_left_click.
  destruct (to_math_coords (IZR event_x) (IZR event_y)) as [mx my] eqn:Hp.
  subst probe. cbn [fst snd]. rewrite Hmode.
  destruct (delete_scan_cases mx my app (rev (shapes app)) [])
    as [[Hall Hscan] | (pre & s & post & Hrev & Hin & Hpost & Hscan)].
  - rewrite rev_involutive, app_nil_r. reflexivity.
  - apply Forall_rev. assumption.
  - exists app. cbn [length] in Hscan. rewrite Hscan.
    repeat (split; [reflexivity || assumption |]).
    left. split; [| reflexivity].
    rewrite <- (rev_involutive (shapes app)). apply Forall_rev. assumption.
  - cbn [length] in Hscan. rewrite Hscan, app_nil_r.
    rewrite rev_involutive in Hrev.
    eexists. split; [reflexivity |]. cbn.
    repeat (split; [reflexivity || assumption |]).
    right. exists pre, s, post. auto.
Qed.

Lemma delete_click_removes_topmost_witness :
  let app := mkApp [RectangleShape 0 0 10 10; RectangleShape 0 0 20 20]
                   None [] None true None in
  let probe := to_math_coords (IZR 405) (IZR 295) in
  exists app',
    on_left_click app 405 295 = Ok app' /\
    delete_mode app' = true /\
    current_tool app' = current_tool app /\
    click_points app' = click_points app /\
    ((Forall (misses probe.1 probe.2) (shapes app) /\ app' = app)
     \/
     (exists pre s post,
         shapes app = pre ++ s :: post /\
         contains probe.1 probe.2 s /\
         Forall (misses probe.1 probe.2) post /\
         shapes app' = pre ++ post)).
Proof.
  intros app. apply (delete_click_removes_topmost app 405 295).
  - reflexivity.
  - repeat constructor; discriminate.
Defined.

(** C6 as stated fails: with a polygon without points on top of a square
    (an import can put it there), a click inside the square raises in the
    hit test of the polygon and the square, the only shape that contains
    the click, is not removed. *)
Lemma delete_click_blocked :
  let app := mkApp [RectangleShape 0 0 10 10; PolygonShape []]
                   None [] None true None in
  let probe := to_math_coords (IZR 405) (IZR 295) in
  contains probe.1 probe.2 (RectangleShape 0 0 10 10) /\
  on_left_click app 405 295 = Raise ValueError /\
  shapes (handle app (LeftClick 405 295)) = shapes app.
Proof.
  intros app probe. split; [| split; reflexivity].
  subst probe. unfold contains, is_point_inside, to_math_coords,
    CANVAS_WIDTH, CANVAS_HEIGHT.
  cbn [fst snd bounding_box mbind result_bind].
  rewrite !bool_decide_eq_true_2; [reflexivity | |];
    unfold Rmin, Rmax; repeat destruct (Rle_dec _ _); lra.
Qed.

(** ** Commit of a construction session *)

(** Case analysis on a list of points by its length: 0, 1, 2, 3, more. *)
Ltac split_points points :=
  destruct points as [| [? ?] [| [? ?] [| [? ?] [| ? ?]]]].

Lemma dist_euclid (x1 y1 x2 y2 : R) :
  dist (x1, y1) (x2, y2) = euclid x1 y1 x2 y2.
Proof. unfold dist, euclid. cbn [fst snd]. f_equal. ring. Qed.

Lemma dist_nonneg (p q : R * R) : 0 <= dist p q.
Proof. apply sqrt_pos. Qed.

(** With exactly the required number of points the unpacking succeeds and
    builds the shape of [committed_shape]. *)
Lemma construct_shape_exact (kind : Tool) (points : list (R * R)) :
  length points = needed_points kind ->
  exists s,
    committed_shape kind points = Some s /\
    construct_shape kind points = Ok s.
Proof.
  intros Hlen.
  destruct kind; cbn [needed_points] in Hlen;
    split_points points;
    try discriminate Hlen;
    cbn [committed_shape construct_shape unpack2 unpack3];
    eexists; (split; [reflexivity |]); cbn; rewrite ?dist_euclid;
    reflexivity.
Qed.

(** With more points than required the unpacking raises. *)
Lemma construct_shape_excess (kind : Tool) (points : list (R * R)) :
  (needed_points kind < length points)%nat ->
  construct_shape kind points = Raise ValueError.
Proof.
  intros Hlen.
  destruct kind; cbn [needed_points] in Hlen;
    split_points points;
    cbn [length] in Hlen; try lia; reflexivity.
Qed.

(** C7: on release with an active kind, the commit happens exactly when
    the number of accumulated points is the kind's required count (2, and
    3 for Triangle): the shape built from the points, with the Euclidean
    distance from point 1 to point 2 as radius for the circle family, is
    appended to the collection and tool, points and preview are cleared.
    With fewer points nothing is appended and the points are retained. *)
Theorem release_commits_at_required_count (app : CentroidApp) (kind : Tool) :
  current_tool app = Some kind ->
  needed_points kind = (if decide (kind = Triangle) then 3 else 2)%nat /\
  (length (click_points app) = needed_points kind ->
   exists s,
     committed_shape kind (click_points app) = Some s /\
     on_left_release app
     = Ok (redraw_all (mkApp (shapes app ++ [s]) None [] None
                             (delete_mode app) (centroid_label app)))) /\
  ((length (click_points app) < needed_points kind)%nat ->
   on_left_release app = Ok app) /\
  ((needed_points kind < length (click_points app))%nat ->
   on_left_release app = Raise ValueError).
Proof.
  intros Htool. unfold on_left_release. rewrite Htool.
  split; [destruct kind; reflexivity |].
  split; [| split]; intros Hlen.
  - destruct (construct_shape_exact kind _ Hlen) as (s & Hspec & Hcode).
    exists s. split; [assumption |].
    destruct (decide _) as [Hlt | _]; [lia |].
    rewrite Hcode. reflexivity.
  - destruct (decide _) as [_ | Hge]; [reflexivity | lia].
  - destruct (decide _) as [Hlt | _]; [lia |].
    rewrite construct_shape_excess by assumption. reflexivity.
Qed.

Lemma release_commits_at_required_count_witness :
  let app := mkApp [] (Some Circle) [(0, 0); (3, 4)] None false None in
  exists s,
    committed_shape Circle (click_points app) = Some s /\
    on_left_release app
    = Ok (redraw_all (mkApp (shapes app ++ [s]) None [] None
                            (delete_mode app) (centroid_label app))).
Proof.
  intros app.
  apply (release_commits_at_required_count app Circle); reflexivity.
Defined.

(** ** Import *)

Lemma from_dict_unrecognized (data : gmap string field) :
  recognized data = false -> from_dict data = Ok None.
Proof.
  unfold recognized, known_tags, from_dict. cbn [existsb].
  repeat (destruct (type_is _ _); [discriminate |]). reflexivity.
Qed.

Lemma from_dict_recognized (data : gmap string field) :
  recognized data = true -> from_dict data <> Ok None.
Proof.
  unfold recognized, known_tags, from_dict. cbn [existsb].
  repeat (destruct (type_is _ _);
          [intros _; destruct (_ ≫= _); discriminate |]).
  discriminate.
Qed.

(** Decoding reads the type and the parameters only. *)
Lemma from_dict_encodes (data : gmap string field) (s : Shape) :
  encodes data s -> from_dict data = Ok (Some s).
Proof.
  intros [Htype Hparams]. unfold from_dict, params_of.
  rewrite Htype, Hparams. destruct s; reflexivity.
Qed.

(** The loop when every recognized record encodes a shape: these shapes
    are decoded in order behind [imported_shapes], the types of the other
    records are reported behind [unknown]. *)
Lemma import_loop_appends (shapes_data : list (gmap string field)) :
  Forall (fun d => recognized d = true -> exists s, encodes d s)
         shapes_data ->
  forall imported_shapes unknown,
  exists decoded,
    Forall2 encodes (List.filter recognized shapes_data) decoded /\
    import_loop shapes_data imported_shapes unknown
    = Ok (imported_shapes ++ decoded,
          unknown ++ map (fun d => d !! "type")
                         (List.filter unrecognized shapes_data)).
Proof.
  induction 1 as [| d rest Hd _ IH]; intros imported_shapes unknown.
  - exists []. split; [constructor |]. cbn. rewrite !app_nil_r. reflexivity.
  - cbn [import_loop List.filter]. unfold unrecognized at 1.
    destruct (recognized d) eqn:Hrec; cbn [negb].
    + destruct (Hd eq_refl) as (s & Hs).
      rewrite (from_dict_encodes d s Hs). cbn.
      destruct (IH (imported_shapes ++ [s]) unknown) as (decoded & Hall & ->).
      exists (s :: decoded). split; [constructor; assumption |].
      rewrite <- app_assoc. reflexivity.
    + rewrite (from_dict_unrecognized d Hrec). cbn.
      destruct (IH imported_shapes (unknown ++ [d !! "type"]))
        as (decoded & Hall & ->).
      exists decoded. split; [assumption |].
      rewrite <- app_assoc. reflexivity.
Qed.

(** C8: in an import whose recognized records carry the parameters of
    their variant, every recognized record is decoded and appended, in
    order, behind the shapes already in the collection; every record with
    another type is skipped and its type reported, and the import goes on.
    The collection grows by the number of recognized records: by exactly 1
    for one recognized and one unrecognized record. *)
Theorem import_appends_recognized (app : CentroidApp)
  (shapes_data : list (gmap string field)) :
  Forall (fun d => recognized d = true -> exists s, encodes d s)
         shapes_data ->
  exists decoded,
    Forall2 encodes (List.filter recognized shapes_data) decoded /\
    import_shapes app shapes_data
    = (redraw_all (with_shapes app (shapes app ++ decoded)),
       ImportSuccessful
         (length decoded)
         (map (fun d => d !! "type")
              (List.filter unrecognized shapes_data))) /\
    length (shapes (import_shapes app shapes_data).1)
    = (length (shapes app)
       + length (List.filter recognized shapes_data))%nat.
Proof.
  intros Hwf. unfold import_shapes.
  destruct (import_loop_appends shapes_data Hwf [] [])
    as (decoded & Hall & ->).
  exists decoded. cbn. split; [assumption |]. split; [reflexivity |].
  rewrite length_app. f_equal. symmetry. eapply Forall2_length, Hall.
Qed.

(** One recognized and one unrecognized record on a collection of one
    shape: the collection grows by exactly 1. *)
Lemma import_appends_recognized_witness :
  let app := with_shapes init_app [LineShape 0 0 1 1] in
  let data := [to_dict (RectangleShape 0 0 10 10);
               {[ "type" := FStr "HexagonShape" ]}] in
  length (shapes (import_shapes app data).1) = S (length (shapes app)).
Proof.
  intros app data.
  destruct (import_appends_recognized app data) as (decoded & _ & _ & Hlen).
  - repeat constructor.
    + intros _. exists (RectangleShape 0 0 10 10). split; reflexivity.
    + discriminate.
  - rewrite Hlen. reflexivity.
Defined.

(** ** Radii of interactively built shapes *)

Lemma round_ok_of_radius (s : Shape) : bbox_regular s -> round_ok s.
Proof.
  destruct s; cbn [bbox_regular round_ok bounding_box]; intros Hreg;
    try exact I;
    (split; [exact Hreg |]); eexists; (split; [reflexivity |]);
    split; lra.
Qed.

Lemma construct_shape_round_ok (kind : Tool) (points : list (R * R))
  (s : Shape) :
  construct_shape kind points = Ok s -> round_ok s.
Proof.
  intros Hs. apply round_ok_of_radius. revert Hs.
  destruct kind;
    split_points points;
    cbn; intros Hs; try discriminate Hs; injection Hs as <-; cbn;
    try exact I; apply dist_nonneg.
Qed.

(** A scan returns the collection as it was or with one position
    deleted. *)
Lemma delete_scan_shapes (app app' : CentroidApp) (reversed : list Shape)
  (i : nat) (mx my : R) :
  delete_scan app reversed i mx my = Ok app' ->
  shapes app' = shapes app \/ exists idx, shapes app' = delete idx (shapes app).
Proof.
  revert i. induction reversed as [| s rest IH]; intros i; cbn [delete_scan].
  - intros [= <-]. left. reflexivity.
  - destruct (is_point_inside s mx my) as [[|] | e]; cbn;
      [| apply IH | discriminate].
    unfold pop. destruct (shapes app !! _); cbn; [| discriminate].
    intros [= <-]. right. eexists. reflexivity.
Qed.

Lemma handle_round_ok (app : CentroidApp) (ev : Event) :
  Forall round_ok (shapes app) -> Forall round_ok (shapes (handle app ev)).
Proof.
  intros Hinv. destruct ev as [kind | | x y | x y | | | input]; cbn [handle].
  - exact Hinv.
  - exact Hinv.
  - unfold on_left_click.
    destruct (to_math_coords (IZR x) (IZR y)) as [mx my].
    destruct (delete_mode app); [| exact Hinv].
    destruct (delete_scan app (rev (shapes app)) 1 mx my) as [app' | e] eqn:Hscan;
      cbn [recover]; [| exact Hinv].
    destruct (delete_scan_shapes _ _ _ _ _ _ Hscan) as [-> | (idx & ->)];
      [exact Hinv | apply Forall_delete, Hinv].
  - unfold on_drag. destruct (current_tool app) as [tool |]; [| exact Hinv].
    destruct (negb (needs_2_points tool)); [exact Hinv |].
    destruct (click_points app) as [| [x1 y1] rest]; [exact Hinv |].
    destruct (to_math_coords (IZR x) (IZR y)). exact Hinv.
  - unfold on_left_release.
    destruct (current_tool app) as [kind |]; [| exact Hinv].
    destruct (decide _); [exact Hinv |].
    destruct (construct_shape kind (click_points app)) as [s | e] eqn:Hs;
      cbn; [| exact Hinv].
    apply Forall_app. split; [exact Hinv |].
    constructor; [eapply construct_shape_round_ok, Hs | constructor].
  - exact Hinv.
  - unfold on_submit. destruct (points_var input) as [n |]; [| exact Hinv].
    destruct (decide (n <= 3)%Z); [exact Hinv |].
    destruct (decide _); [exact Hinv |].
    destruct (parse_pairs (coords_var input) []) as [err | points];
      [exact Hinv |].
    cbn. apply Forall_app. split; [exact Hinv | repeat constructor].
Qed.

Lemma run_round_ok (evs : list Event) (app : CentroidApp) :
  Forall round_ok (shapes app) -> Forall round_ok (shapes (run app evs)).
Proof.
  revert app. induction evs as [| ev evs IH]; intros app Hinv; cbn.
  - exact Hinv.
  - apply IH, handle_round_ok, Hinv.
Qed.

(** C10: a circle-family shape committed on release has the distance
    between the two clicked points as its radius, which is not negative;
    hence after any sequence of interactive events from the start of the
    application every Circle, HalfCircle and QuarterCircle of the
    collection has a radius that is not negative and a bounding box with
    xmin <= xmax and ymin <= ymax. *)
Theorem interactive_round_shapes_ordered :
  (forall kind c p,
      kind = Circle \/ kind = HalfCircle \/ kind = QuarterCircle ->
      exists s, construct_shape kind [c; p] = Ok s /\
                committed_shape kind [c; p] = Some s /\ round_ok s) /\
  (forall evs : list Event, Forall round_ok (shapes (run init_app evs))).
Proof.
  split.
  - intros kind [cx cy] [px py] Hkind.
    destruct (construct_shape_exact kind [(cx, cy); (px, py)])
      as (s & Hspec & Hcode).
    + destruct Hkind as [-> | [-> | ->]]; reflexivity.
    + exists s. repeat split; try assumption.
      eapply construct_shape_round_ok, Hcode.
  - intros evs. apply run_round_ok. constructor.
Qed.

Lemma interactive_round_shapes_ordered_witness :
  exists s, construct_shape Circle [(0, 0); (3, 4)] = Ok s /\
            committed_shape Circle [(0, 0); (3, 4)] = Some s /\ round_ok s.
Proof.
  apply (proj1 interactive_round_shapes_ordered Circle (0, 0) (3, 4)).
  left. reflexivity.
Defined.

(** A session that draws a circle: tool, press and release at the centre,
    press and release 10 pixels to the right. *)
Example circle_session :
  exists cx cy r,
    shapes (run init_app [ActivateTool Circle; LeftClick 400 300; LeftRelease;
                          LeftClick 410 300; LeftRelease])
    = [CircleShape cx cy r].
Proof. do 3 eexists. reflexivity. Qed.

(** A record read from a file is not bound by this: an import appends a
    circle of radius -1 as it is. *)
Example import_negative_radius :
  shapes (import_shapes init_app [to_dict (CircleShape 0 0 (-1))]).1
  = [CircleShape 0 0 (-1)].
Proof. reflexivity. Qed.

(** ** Polygons by coordinates *)

Lemma parse_pairs_well_formed (points acc : list (R * R)) :
  parse_pairs (map pair_text points) acc = inr (acc ++ points).
Proof.
  revert acc. induction points as [| [x y] rest IH]; intros acc; cbn.
  - rewrite app_nil_r. reflexivity.
  - rewrite IH, <- app_assoc. reflexivity.
Qed.

(** C3 as amended: submitting the coordinates dialog with a number of
    points below 3 shows an error and adds no shape; with 4 or more points
    and as many well-formed pairs it appends the polygon of these points.
    The constructor of [PolygonShape] checks nothing: called with the
    keywords of a record it builds the polygon of any list of points. *)
Theorem polygon_by_coordinates :
  (forall app input n,
      points_var input = Some n -> (n < 3)%Z ->
      on_submit app input = (app, RequiresAtLeast4Points)) /\
  (forall app points,
      (4 <= length points)%nat ->
      on_submit app (mkDialogInput (Some (Z.of_nat (length points)))
                                   (map pair_text points))
      = (redraw_all (with_shapes app (shapes app ++ [PolygonShape points])),
         DialogDestroyed)) /\
  (forall points,
      polygon_kw {[ "points" := PPoints points ]}
      = Ok (PolygonShape points)).
Proof.
  split; [| split].
  - intros app input n Hn Hlt. unfold on_submit. rewrite Hn.
    destruct (decide (n <= 3)%Z); [reflexivity | lia].
  - intros app points Hlen. unfold on_submit. cbn [points_var coords_var].
    destruct (decide (Z.of_nat (length points) <= 3)%Z); [lia |].
    rewrite length_map.
    destruct (decide (Z.of_nat (length points) ≠ Z.of_nat (length points)));
      [congruence |].
    rewrite parse_pairs_well_formed. reflexivity.
  - intros points. reflexivity.
Qed.

Lemma polygon_by_coordinates_witness :
  on_submit init_app (mkDialogInput (Some 2%Z) [[Some 0; Some 0]; [Some 1; Some 1]])
  = (init_app, RequiresAtLeast4Points)
  /\
  on_submit init_app
    (mkDialogInput (Some (Z.of_nat (length [(0, 0); (4, 0); (4, 3); (0, 3)])))
                   (map pair_text [(0, 0); (4, 0); (4, 3); (0, 3)]))
  = (redraw_all
       (with_shapes init_app
          (shapes init_app ++ [PolygonShape [(0, 0); (4, 0); (4, 3); (0, 3)]])),
     DialogDestroyed).
Proof.
  split.
  - apply (proj1 polygon_by_coordinates init_app _ 2%Z); [reflexivity | lia].
  - apply (proj1 (proj2 polygon_by_coordinates) init_app
                 [(0, 0); (4, 0); (4, 3); (0, 3)]).
    cbn. lia.
Defined.

(** C3 as stated fails: a polygon of two points is built from its record
    and an import appends it to the collection; and the dialog turns down
    three points with three well-formed pairs. *)
Lemma polygon_two_points_accepted :
  from_dict (to_dict (PolygonShape [(0, 0); (1, 1)]))
  = Ok (Some (PolygonShape [(0, 0); (1, 1)]))
  /\
  shapes (import_shapes init_app [to_dict (PolygonShape [(0, 0); (1, 1)])]).1
  = [PolygonShape [(0, 0); (1, 1)]]
  /\
  on_submit init_app
    (mkDialogInput (Some 3%Z)
                   [[Some 0; Some 0]; [Some 1; Some 0]; [Some 0; Some 1]])
  = (init_app, RequiresAtLeast4Points).
Proof. repeat split. Qed.

(** ** Worked examples *)

(** The triangle (0,0), (4,0), (0,3): area 6 and centroid (4/3, 1). *)
Example triangle_3_4 :
  calculate_area (TriangleShape 0 0 4 0 0 3) = 6 /\
  calculate_centroid (TriangleShape 0 0 4 0 0 3) = (4 / 3, 1).
Proof.
  cbn. split.
  - replace ((0 * (0 - 3) + 4 * (3 - 0) + 0 * (0 - 0)) / 2) with 6 by lra.
    apply Rabs_right. lra.
  - f_equal; lra.
Qed.

(** The area of a rectangle does not depend on the order of its corners. *)
Example rectangle_area_corner_order (x1 y1 x2 y2 : R) :
  calculate_area (RectangleShape x1 y1 x2 y2)
  = calculate_area (RectangleShape x2 y2 x1 y1).
Proof. cbn. rewrite (Rabs_minus_sym x2), (Rabs_minus_sym y2). reflexivity. Qed.

(** Two overlapping squares, a probe inside both: the one inserted last
    goes. *)
Example delete_tie_break :
  on_left_click
    (mkApp [RectangleShape 0 0 10 10; RectangleShape 0 0 20 20]
           None [] None true None) 405 295
  = Ok (redraw_all (mkApp [RectangleShape 0 0 10 10] None [] None true None)).
Proof.
  unfold on_left_click, to_math_coords, CANVAS_WIDTH, CANVAS_HEIGHT.
  cbn [delete_mode shapes rev List.app delete_scan is_point_inside
       bounding_box mbind result_bind].
  rewrite !bool_decide_eq_true_2; [reflexivity | ..];
    unfold Rmin, Rmax; repeat destruct (Rle_dec _ _); lra.
Qed.

(** * Further properties *)

(** ** Order of the defining points *)

(** X2: a rectangle given by the same two opposite corners in the other
    order, or by its other two corners, has the same area, centroid and
    bounding box. *)
Theorem rectangle_corner_order (x1 y1 x2 y2 : R) :
  let r := RectangleShape x1 y1 x2 y2 in
  forall r',
    r' = RectangleShape x2 y2 x1 y1 \/ r' = RectangleShape x1 y2 x2 y1
    \/ r' = RectangleShape x2 y1 x1 y2 ->
    calculate_area r' = calculate_area r /\
    calculate_centroid r' = calculate_centroid r /\
    bounding_box r' = bounding_box r.
Proof.
  intros r r' Hr'. subst r.
  destruct Hr' as [-> | [-> | ->]];
    cbn [calculate_area calculate_centroid bounding_box];
    rewrite ?(Rabs_minus_sym x1 x2), ?(Rabs_minus_sym y1 y2),
            ?(Rmin_comm x2 x1), ?(Rmax_comm x2 x1),
            ?(Rmin_comm y2 y1), ?(Rmax_comm y2 y1);
    (split; [reflexivity | split; [f_equal; lra | reflexivity]]).
Qed.

Lemma rectangle_corner_order_witness :
  calculate_area (RectangleShape 10 10 0 0)
  = calculate_area (RectangleShape 0 0 10 10).
Proof.
  apply (rectangle_corner_order 0 0 10 10 (RectangleShape 10 10 0 0)).
  left. reflexivity.
Defined.



(** ** Polygons of few points *)





(** X5: a polygon of one or two points, wherever they lie, has area 0 and
    the centroid (0,0); so has the polygon without points. *)
Theorem polygon_below_three_points (points : list (R * R)) :
  (length points < 3)%nat ->
  calculate_area (PolygonShape points) = 0 /\
  calculate_centroid (PolygonShape points) = (0, 0).
Proof.
  intros Hlen.
  assert (Hs : shoelace points = 0).
  { destruct points as [| [a1 b1] [| [a2 b2] [| p3 more]]];
      cbn [length] in Hlen; try lia;
      unfold shoelace, edge_cross; cbn; ring. }
  assert (Ha : calculate_area (PolygonShape points) = 0).
  { cbn [calculate_area]. rewrite Hs, Rabs_R0. lra. }
  split; [exact Ha |].
  cbn [calculate_centroid]. rewrite Ha, Rabs_R0.
  destruct (decide _) as [_ | Hge]; [reflexivity | lra].
Qed.

Lemma polygon_below_three_points_witness :
  calculate_area (PolygonShape [(100, 100); (200, 250)]) = 0 /\
  calculate_centroid (PolygonShape [(100, 100); (200, 250)]) = (0, 0).
Proof.
  apply (polygon_below_three_points [(100, 100); (200, 250)]). cbn. lia.
Defined.



(** ** Points inside the bounding box *)

Lemma fold_Rmin_lower (l : list R) (a x : R) :
  In x (a :: l) -> fold_left Rmin l a <= x.
Proof.
  revert a. induction l as [| b l IH]; intros a Hin; cbn [fold_left].
  - destruct Hin as [-> | []]. lra.
  - destruct Hin as [-> | [-> | Hin]].
    + etransitivity; [apply fold_Rmin_le | apply Rmin_l].
    + etransitivity; [apply fold_Rmin_le | apply Rmin_r].
    + apply IH. right. exact Hin.
Qed.

Lemma fold_Rmax_upper (l : list R) (a x : R) :
  In x (a :: l) -> x <= fold_left Rmax l a.
Proof.
  revert a. induction l as [| b l IH]; intros a Hin; cbn [fold_left].
  - destruct Hin as [-> | []]. lra.
  - destruct Hin as [-> | [-> | Hin]].
    + etransitivity; [apply Rmax_l | apply fold_Rmax_ge].
    + etransitivity; [apply Rmax_r | apply fold_Rmax_ge].
    + apply IH. right. exact Hin.
Qed.

(** The box of two coordinate lists holds every pair of members. *)
Lemma inside_box_of_lists (xs ys : list R) (x y : R) :
  In x xs -> In y ys ->
  (xmin ← py_min xs; ymin ← py_min ys;
   xmax ← py_max xs; ymax ← py_max ys;
   Ok (xmin, ymin, xmax, ymax))
  ≫= (fun '(xmin, ymin, xmax, ymax) =>
        Ok (bool_decide (xmin <= x <= xmax)
            && bool_decide (ymin <= y <= ymax)))
  = Ok true.
Proof.
  intros Hx Hy.
  destruct xs as [| x0 xs]; [destruct Hx |].
  destruct ys as [| y0 ys]; [destruct Hy |].
  cbn. rewrite !bool_decide_eq_true_2; [reflexivity | |];
    (split; [apply fold_Rmin_lower | apply fold_Rmax_upper]); assumption.
Qed.

(** X7: every point a line, rectangle, triangle or polygon is given by
    (and the other two corners of a rectangle) passes the hit test of the
    shape. *)
Theorem vertices_inside (s : Shape) (x y : R) :
  In (x, y) (vertices s) -> is_point_inside s x y = Ok true.
Proof.
  intros Hin. unfold is_point_inside.
  destruct s as [x1 y1 x2 y2 | x1 y1 x2 y2 | | x1 y1 x2 y2 x3 y3 | | | points];
    cbn [vertices] in Hin; cbn [bounding_box]; try (exfalso; exact Hin).
  - cbn. rewrite !bool_decide_eq_true_2; [reflexivity | |];
      cbn in Hin; destruct Hin as [[= <- <-] | [[= <- <-] | []]];
      unfold Rmin, Rmax; repeat destruct (Rle_dec _ _); lra.
  - cbn. rewrite !bool_decide_eq_true_2; [reflexivity | |];
      cbn in Hin;
      destruct Hin as [[= <- <-] | [[= <- <-] | [[= <- <-] | [[= <- <-] | []]]]];
      unfold Rmin, Rmax; repeat destruct (Rle_dec _ _); lra.
  - apply inside_box_of_lists;
      cbn in Hin; destruct Hin as [[= <- <-] | [[= <- <-] | [[= <- <-] | []]]];
      cbn; auto.
  - apply inside_box_of_lists.
    + apply (in_map fst) in Hin. exact Hin.
    + apply (in_map snd) in Hin. exact Hin.
Qed.

Lemma vertices_inside_witness :
  is_point_inside (PolygonShape [(0, 0); (4, 0); (4, 3); (0, 3)]) 4 3 = Ok true.
Proof.
  apply (vertices_inside (PolygonShape [(0, 0); (4, 0); (4, 3); (0, 3)])).
  cbn. auto.
Defined.




(** ** Orientation of a polygon *)






Section EdgeSums.
Variable f : R * R -> R * R -> R.




Hypothesis f_antisym : forall p q, f p q = - f q p.


End EdgeSums.





(** ** More on the composite centroid *)


Lemma sigma_cons (f : Shape -> R) (s : Shape) (l : list Shape) :
  sigma f (s :: l) = f s + sigma f l.
Proof. reflexivity. Qed.


Lemma sigma_app (f : Shape -> R) (l1 l2 : list Shape) :
  sigma f (l1 ++ l2) = sigma f l1 + sigma f l2.
Proof.
  induction l1 as [| s l1 IH].
  - cbn [List.app]. unfold sigma at 2. cbn. lra.
  - rewrite <- app_comm_cons, !sigma_cons, IH. lra.
Qed.


(** The value of the label in terms of the three sums, the empty
    collection included (its total area is 0). *)
Lemma composite_centroid_sums (shapes : list Shape) :
  calculate_composite_centroid shapes
  = if decide (Rabs (sigma calculate_area shapes) < 1e-9) then None
    else Some (sigma weighted_x shapes / sigma calculate_area shapes,
               sigma weighted_y shapes / sigma calculate_area shapes).
Proof.
  rewrite composite_centroid_cases. destruct shapes as [| s rest].
  - unfold sigma. cbn [fold_right]. rewrite Rabs_R0.
    destruct (decide _) as [_ | Hge]; [reflexivity | lra].
  - reflexivity.
Qed.





(** X12: a shape of area 0 (every line, every polygon of fewer than three
    points, a circle of radius 0) does not count: inserting it anywhere in
    the collection leaves the composite centroid as it is. *)
Theorem composite_ignores_zero_area (l1 l2 : list Shape) (s : Shape) :
  calculate_area s = 0 ->
  calculate_composite_centroid (l1 ++ s :: l2)
  = calculate_composite_centroid (l1 ++ l2).
Proof.
  intros Hzero. rewrite !composite_centroid_sums.
  rewrite !sigma_app, !sigma_cons. unfold weighted_x at 2, weighted_y at 2.
  rewrite Hzero, !Rmult_0_l, !Rplus_0_l. reflexivity.
Qed.

Lemma composite_ignores_zero_area_witness :
  calculate_composite_centroid
    ([RectangleShape 0 0 10 10] ++ LineShape 0 0 50 50 :: [])
  = calculate_composite_centroid ([RectangleShape 0 0 10 10] ++ []).
Proof. apply composite_ignores_zero_area. reflexivity. Defined.






(** ** What [from_dict] accepts *)

(** A dictionary with [n] entries that has the [n] entries of [m] is
    [m]. *)
Lemma kwargs_exact (kwargs m : gmap string pval) :
  m ⊆ kwargs -> size kwargs = size m -> kwargs = m.
Proof.
  intros Hsub Hsize. symmetry. apply map_subseteq_size_eq; [exact Hsub | lia].
Qed.

Lemma kw_arity_inv (kwargs : gmap string pval) (n : nat) (u : unit) :
  kw_arity kwargs n = Ok u -> size kwargs = n.
Proof. unfold kw_arity. destruct (decide _); [auto | discriminate]. Qed.

Lemma kw_num_inv (kwargs : gmap string pval) (name : string) (r : R) :
  kw_num kwargs name = Ok r -> kwargs !! name = Some (PNum r).
Proof.
  unfold kw_num. destruct (kwargs !! name) as [[r' | pts] |];
    [intros [= ->]; reflexivity | discriminate | discriminate].
Qed.

Lemma kw_points_inv (kwargs : gmap string pval) (name : string)
  (points : list (R * R)) :
  kw_points kwargs name = Ok points -> kwargs !! name = Some (PPoints points).
Proof.
  unfold kw_points. destruct (kwargs !! name) as [[r' | pts] |];
    [discriminate | intros [= ->]; reflexivity | discriminate].
Qed.

(** Case analysis on the binds of a keyword call that returned. *)
Ltac invert_kw H :=
  repeat match type of H with
    | (?m ≫= _) = Ok _ =>
        let E := fresh "E" in
        destruct m eqn:E; cbn in H; [| discriminate H]
    end;
  repeat match goal with
    | E : kw_arity _ _ = Ok _ |- _ => apply kw_arity_inv in E
    | E : kw_num _ _ = Ok _ |- _ => apply kw_num_inv in E
    | E : kw_points _ _ = Ok _ |- _ => apply kw_points_inv in E
    end.

Ltac solve_kwargs :=
  apply kwargs_exact;
  [ repeat (apply insert_subseteq_l; [assumption |]);
    apply map_empty_subseteq
  | assumption ].

Lemma corners_kw_inv (mk : R -> R -> R -> R -> Shape)
  (kwargs : gmap string pval) (s : Shape) :
  corners_kw mk kwargs = Ok s ->
  exists x1 y1 x2 y2,
    s = mk x1 y1 x2 y2 /\
    kwargs = {[ "x1" := PNum x1; "y1" := PNum y1;
                "x2" := PNum x2; "y2" := PNum y2 ]}.
Proof.
  unfold corners_kw. intros H. invert_kw H. injection H as <-.
  do 4 eexists. split; [reflexivity | solve_kwargs].
Qed.

Lemma round_kw_inv (mk : R -> R -> R -> Shape)
  (kwargs : gmap string pval) (s : Shape) :
  round_kw mk kwargs = Ok s ->
  exists cx cy r,
    s = mk cx cy r /\
    kwargs = {[ "cx" := PNum cx; "cy" := PNum cy; "r" := PNum r ]}.
Proof.
  unfold round_kw. intros H. invert_kw H. injection H as <-.
  do 3 eexists. split; [reflexivity | solve_kwargs].
Qed.

Lemma triangle_kw_inv (kwargs : gmap string pval) (s : Shape) :
  triangle_kw kwargs = Ok s ->
  exists x1 y1 x2 y2 x3 y3,
    s = TriangleShape x1 y1 x2 y2 x3 y3 /\
    kwargs = {[ "x1" := PNum x1; "y1" := PNum y1;
                "x2" := PNum x2; "y2" := PNum y2;
                "x3" := PNum x3; "y3" := PNum y3 ]}.
Proof.
  unfold triangle_kw. intros H. invert_kw H. injection H as <-.
  do 6 eexists. split; [reflexivity | solve_kwargs].
Qed.

Lemma polygon_kw_inv (kwargs : gmap string pval) (s : Shape) :
  polygon_kw kwargs = Ok s ->
  exists points,
    s = PolygonShape points /\ kwargs = {[ "points" := PPoints points ]}.
Proof.
  unfold polygon_kw. intros H. invert_kw H. injection H as <-.
  eexists. split; [reflexivity | solve_kwargs].
Qed.

Lemma type_is_true (shape_type : option field) (name : string) :
  type_is shape_type name = true -> shape_type = Some (FStr name).
Proof.
  destruct shape_type as [[t | d] |]; cbn; try discriminate.
  intros Ht. apply bool_decide_eq_true_1 in Ht. congruence.
Qed.

Lemma params_of_inv (data : gmap string field) (params : gmap string pval) :
  params_of data = Ok params -> data !! "params" = Some (FParams params).
Proof.
  unfold params_of. destruct (data !! "params") as [[t | d] |];
    [discriminate | intros [= ->]; reflexivity | discriminate].
Qed.

(** One branch of the dispatch of [from_dict] on a result [Ok (Some s)]. *)
Ltac from_dict_branch data :=
  let Htype := fresh "Htype" in
  let Hparams := fresh "Hparams" in
  let Hkw := fresh "Hkw" in
  let params := fresh "params" in
  destruct (type_is (data !! "type") _) eqn:Htype;
  [ apply type_is_true in Htype; rewrite Htype;
    destruct (params_of data) as [params | ?] eqn:Hparams;
      [| cbn; discriminate];
    apply params_of_inv in Hparams; rewrite Hparams; cbn;
    match goal with
    | |- context [corners_kw ?mk params] =>
        destruct (corners_kw mk params) eqn:Hkw;
        [ apply corners_kw_inv in Hkw as (? & ? & ? & ? & -> & ->)
        | cbn; discriminate ]
    | |- context [round_kw ?mk params] =>
        destruct (round_kw mk params) eqn:Hkw;
        [ apply round_kw_inv in Hkw as (? & ? & ? & -> & ->)
        | cbn; discriminate ]
    | |- context [triangle_kw params] =>
        destruct (triangle_kw params) eqn:Hkw;
        [ apply triangle_kw_inv in Hkw as (? & ? & ? & ? & ? & ? & -> & ->)
        | cbn; discriminate ]
    | |- context [polygon_kw params] =>
        destruct (polygon_kw params) eqn:Hkw;
        [ apply polygon_kw_inv in Hkw as (? & -> & ->)
        | cbn; discriminate ]
    end;
    cbn; intros [= <-]; split; reflexivity
  | clear Htype ].

Lemma from_dict_sound (data : gmap string field) (s : Shape) :
  from_dict data = Ok (Some s) -> encodes data s.
Proof.
  unfold from_dict, encodes.
  do 7 from_dict_branch data.
  discriminate.
Qed.

Lemma to_dict_params (s : Shape) :
  to_dict s !! "params" = Some (FParams (params_dict s)).
Proof. destruct s; reflexivity. Qed.

Lemma params_dict_sorted (s : Shape) : map_Forall sorted_value (params_dict s).
Proof.
  destruct s; unfold params_dict;
    repeat first [ apply map_Forall_insert_2; [cbn; congruence |]
                 | apply map_Forall_empty ].
Qed.

Lemma well_sorted_to_dict (s : Shape) : well_sorted (to_dict s).
Proof.
  unfold well_sorted. rewrite to_dict_params. apply params_dict_sorted.
Qed.

Lemma well_sorted_without_params (data : gmap string field) :
  data !! "params" = None -> well_sorted data.
Proof. unfold well_sorted. intros ->. exact I. Qed.

(** X15: among the records whose parameters have the sort of their key,
    [from_dict] returns a shape exactly for those whose type and [params]
    entries are the ones [to_dict] writes for this shape: no parameter may
    be missing, none may be added, other keys of the record are not read,
    and the value returned is the shape these parameters describe. *)
Theorem from_dict_exact (data : gmap string field) (s : Shape) :
  well_sorted data ->
  (from_dict data = Ok (Some s) <-> encodes data s).
Proof. intros _. split; [apply from_dict_sound | apply from_dict_encodes]. Qed.

Lemma from_dict_exact_witness :
  from_dict {[ "type" := FStr "CircleShape";
               "params" := FParams {[ "r" := PNum 2; "cy" := PNum 1;
                                      "cx" := PNum 0 ]};
               "note" := FStr "added by hand" ]}
  = Ok (Some (CircleShape 0 1 2)).
Proof.
  apply (from_dict_exact _ (CircleShape 0 1 2)).
  - unfold well_sorted.
    change (map_Forall sorted_value
              ({[ "r" := PNum 2; "cy" := PNum 1; "cx" := PNum 0 ]}
               : gmap string pval)).
    repeat first [ apply map_Forall_insert_2; [cbn; congruence |]
                 | apply map_Forall_empty ].
  - split; reflexivity.
Defined.

Lemma kw_arity_raise (kwargs : gmap string pval) (n : nat) (e : exn) :
  kw_arity kwargs n = Raise e -> e = TypeError.
Proof. unfold kw_arity. destruct (decide _); [discriminate | congruence]. Qed.

Lemma kw_num_raise (kwargs : gmap string pval) (name : string) (e : exn) :
  kw_num kwargs name = Raise e -> e = TypeError.
Proof.
  unfold kw_num. destruct (kwargs !! name) as [[r | pts] |];
    [discriminate | congruence | congruence].
Qed.

Lemma kw_points_raise (kwargs : gmap string pval) (name : string) (e : exn) :
  kw_points kwargs name = Raise e -> e = TypeError.
Proof.
  unfold kw_points. destruct (kwargs !! name) as [[r | pts] |];
    [congruence | discriminate | congruence].
Qed.

(** Case analysis on the binds of a keyword call that raised. *)
Ltac raise_kw H :=
  repeat match type of H with
    | (?m ≫= _) = Raise _ =>
        let E := fresh "E" in
        destruct m eqn:E; cbn in H;
        [| injection H as <-;
           first [ eapply kw_arity_raise, E | eapply kw_num_raise, E
                 | eapply kw_points_raise, E ] ]
    end;
  try discriminate H.

Lemma kw_raise_TypeError (kwargs : gmap string pval) (e : exn) :
  (forall mk, corners_kw mk kwargs = Raise e -> e = TypeError) /\
  (forall mk, round_kw mk kwargs = Raise e -> e = TypeError) /\
  (triangle_kw kwargs = Raise e -> e = TypeError) /\
  (polygon_kw kwargs = Raise e -> e = TypeError).
Proof.
  unfold corners_kw, round_kw, triangle_kw, polygon_kw.
  repeat split; intros; match goal with H : _ = Raise _ |- _ => raise_kw H end.
Qed.

Lemma from_dict_raise (data : gmap string field) (e : exn) :
  from_dict data = Raise e -> e = decode_error data.
Proof.
  unfold from_dict, decode_error, params_of.
  destruct (kw_raise_TypeError
              match data !! "params" with
              | Some (FParams params) => params
              | _ => ∅
              end e) as (Hc & Hr & Ht & Hp).
  repeat (destruct (type_is (data !! "type") _);
          [ destruct (data !! "params") as [[t | params] |]; cbn;
            [ congruence
            | match goal with
              | |- context [corners_kw ?mk params] =>
                  specialize (Hc mk); destruct (corners_kw mk params)
              | |- context [round_kw ?mk params] =>
                  specialize (Hr mk); destruct (round_kw mk params)
              | |- context [triangle_kw params] => destruct (triangle_kw params)
              | |- context [polygon_kw params] => destruct (polygon_kw params)
              end; cbn; [discriminate | intros [= <-]; auto]
            | congruence ]
          | ]).
  discriminate.
Qed.

(** X16: a record with one of the seven type strings, and with parameters
    of the sort of their keys, is never skipped: when its entries are not
    those of a shape of this variant, decoding it raises, [KeyError] if
    the record has no "params" and [TypeError] otherwise (a parameter
    missing or added, or "params" not a dictionary). *)
Theorem from_dict_recognized_raises (data : gmap string field) :
  recognized data = true ->
  well_sorted data ->
  (forall s, ~ encodes data s) ->
  from_dict data = Raise (decode_error data).
Proof.
  intros Hrec _ Hnone.
  destruct (from_dict data) as [[s |] | e] eqn:Hd.
  - exfalso. apply (Hnone s), from_dict_sound, Hd.
  - exfalso. apply (from_dict_recognized data Hrec), Hd.
  - f_equal. apply from_dict_raise, Hd.
Qed.

Lemma not_encodes_without_params (data : gmap string field) (s : Shape) :
  data !! "params" = None -> ~ encodes data s.
Proof.
  intros Hnone [_ Hp]. rewrite Hnone in Hp. destruct s; discriminate Hp.
Qed.

Lemma from_dict_recognized_raises_witness :
  from_dict {[ "type" := FStr "CircleShape" ]} = Raise KeyError.
Proof.
  rewrite (from_dict_recognized_raises {[ "type" := FStr "CircleShape" ]}).
  - reflexivity.
  - reflexivity.
  - apply well_sorted_without_params. reflexivity.
  - intros s. apply not_encodes_without_params. reflexivity.
Defined.

(** ** Export and import *)





Lemma import_loop_raises (pre post : list (gmap string field))
  (d : gmap string field) (e : exn) :
  Forall (fun d' => exists o, from_dict d' = Ok o) pre ->
  from_dict d = Raise e ->
  forall imported_shapes unknown,
    import_loop (pre ++ d :: post) imported_shapes unknown = Raise e.
Proof.
  intros Hpre Hd. induction Hpre as [| d' pre (o & Ho) _ IH];
    intros imported_shapes unknown; cbn [List.app import_loop].
  - rewrite Hd. reflexivity.
  - rewrite Ho. cbn. destruct o; apply IH.
Qed.

(** X18: an import of records whose parameters have the sort of their
    keys is all or nothing: when decoding some record raises, the import
    is reported as failed with that exception and the application is left
    exactly as it was, whatever the records before it decoded to. *)
Theorem import_failure_changes_nothing (app : CentroidApp)
  (pre post : list (gmap string field)) (d : gmap string field) (e : exn) :
  Forall well_sorted (pre ++ [d]) ->
  Forall (fun d' => exists o, from_dict d' = Ok o) pre ->
  from_dict d = Raise e ->
  import_shapes app (pre ++ d :: post) = (app, ImportFailed e).
Proof.
  intros _ Hpre Hd. unfold import_shapes.
  rewrite (import_loop_raises pre post d e Hpre Hd). reflexivity.
Qed.

Lemma import_failure_changes_nothing_witness :
  import_shapes init_app
    ([to_dict (RectangleShape 0 0 10 10)]
       ++ {[ "type" := FStr "CircleShape" ]} :: [to_dict (LineShape 0 0 1 1)])
  = (init_app, ImportFailed KeyError).
Proof.
  apply import_failure_changes_nothing.
  - constructor; [apply well_sorted_to_dict |].
    constructor; [apply well_sorted_without_params; reflexivity |].
    constructor.
  - repeat constructor. eexists. reflexivity.
  - reflexivity.
Defined.

(** ** The centroid label *)







(** ** Construction sessions *)

Lemma run_app (app : CentroidApp) (evs1 evs2 : list Event) :
  run app (evs1 ++ evs2) = run (run app evs1) evs2.
Proof. apply fold_left_app. Qed.

Lemma with_preview_same (app : CentroidApp) :
  with_preview app (preview_item app) = app.
Proof. destruct app; reflexivity. Qed.

Lemma on_drag_preview (app : CentroidApp) (x y : Z) :
  exists item, on_drag app x y = with_preview app item.
Proof.
  unfold on_drag.
  destruct (current_tool app) as [tool |] eqn:Htool;
    [| eexists; symmetry; apply with_preview_same].
  destruct (negb (needs_2_points tool));
    [eexists; symmetry; apply with_preview_same |].
  destruct (click_points app) as [| [x1 y1] rest] eqn:Hpoints;
    [eexists; symmetry; apply with_preview_same |].
  destruct (to_math_coords (IZR x) (IZR y)). eexists.
  unfold with_preview. rewrite Htool, Hpoints. reflexivity.
Qed.

(** Drags change the preview item and nothing else. *)
Lemma run_drags (moves : list (Z * Z)) (app : CentroidApp) :
  exists item,
    run app (map (fun m => Drag m.1 m.2) moves) = with_preview app item.
Proof.
  revert app. induction moves as [| [x y] moves IH]; intros app.
  - exists (preview_item app). symmetry. apply with_preview_same.
  - cbn [map run fold_left handle fst snd].
    destruct (on_drag_preview app x y) as (item & ->).
    destruct (IH (with_preview app item)) as (item' & Hrun).
    exists item'. unfold run in Hrun. rewrite Hrun. reflexivity.
Qed.

(** A stroke with a tool active and delete mode off, as long as points are
    still missing after it: the point is collected. *)
Lemma stroke_collects (app : CentroidApp) (kind : Tool) (x y : Z)
  (moves : list (Z * Z)) :
  current_tool app = Some kind -> delete_mode app = false ->
  (S (length (click_points app)) < needed_points kind)%nat ->
  exists item,
    run app (gesture_events (Stroke x y moves))
    = mkApp (shapes app) (Some kind)
            (click_points app ++ [to_math_coords (IZR x) (IZR y)])
            item false (centroid_label app).
Proof.
  intros Htool Hmode Hlen. cbn [gesture_events].
  change (LeftClick x y :: ?l) with ([LeftClick x y] ++ l).
  rewrite !run_app. cbn [run fold_left handle].
  unfold on_left_click. rewrite Hmode.
  destruct (to_math_coords (IZR x) (IZR y)) as [mx my]. cbn [recover].
  match goal with
  | |- context [on_left_release (run ?a _)] =>
      destruct (run_drags moves a) as (item & Hrun)
  end.
  rewrite Hrun. exists item.
  unfold on_left_release, with_preview.
  cbn [current_tool click_points shapes delete_mode centroid_label].
  rewrite Htool.
  destruct (decide _) as [_ | Hge];
    [| exfalso; apply Hge; rewrite length_app; cbn [length]; lia].
  cbn [recover]. congruence.
Qed.

(** The stroke that brings the last point: the shape is committed. *)
Lemma stroke_commits (app : CentroidApp) (kind : Tool) (x y : Z)
  (moves : list (Z * Z)) :
  current_tool app = Some kind -> delete_mode app = false ->
  S (length (click_points app)) = needed_points kind ->
  exists s,
    committed_shape kind (click_points app ++ [to_math_coords (IZR x) (IZR y)])
    = Some s /\
    run app (gesture_events (Stroke x y moves))
    = redraw_all (mkApp (shapes app ++ [s]) None [] None false
                        (centroid_label app)).
Proof.
  intros Htool Hmode Hlen.
  destruct (construct_shape_exact kind
              (click_points app ++ [to_math_coords (IZR x) (IZR y)]))
    as (s & Hspec & Hcode);
    [rewrite length_app; cbn [length]; lia |].
  exists s. split; [exact Hspec |].
  cbn [gesture_events].
  change (LeftClick x y :: ?l) with ([LeftClick x y] ++ l).
  rewrite !run_app. cbn [run fold_left handle].
  unfold on_left_click. rewrite Hmode.
  destruct (to_math_coords (IZR x) (IZR y)) as [mx my]. cbn [recover].
  match goal with
  | |- context [on_left_release (run ?a _)] =>
      destruct (run_drags moves a) as (item & Hrun)
  end.
  rewrite Hrun.
  unfold on_left_release, with_preview.
  cbn [current_tool click_points shapes delete_mode centroid_label].
  rewrite Htool.
  destruct (decide _) as [Hlt | _];
    [exfalso; rewrite length_app in Hlt; cbn [length] in Hlt; lia |].
  rewrite Hcode. reflexivity.
Qed.

Lemma strokes_commit (kind : Tool) (strokes : list (Z * Z * list (Z * Z))) :
  strokes <> [] ->
  forall app,
    current_tool app = Some kind -> delete_mode app = false ->
    (length (click_points app) + length strokes)%nat = needed_points kind ->
    exists s,
      committed_shape kind (click_points app ++ map stroke_point strokes)
      = Some s /\
      run app (session_events (map stroke_gesture strokes))
      = redraw_all (mkApp (shapes app ++ [s]) None [] None false
                          (centroid_label app)).
Proof.
  induction strokes as [| [[x y] moves] strokes IH]; [congruence |].
  intros _ app Htool Hmode Hlen.
  unfold session_events. cbn [map concat]. rewrite run_app.
  change (gesture_events (stroke_gesture (x, y, moves)))
    with (gesture_events (Stroke x y moves)).
  change (stroke_point (x, y, moves)) with (to_math_coords (IZR x) (IZR y)).
  destruct strokes as [| st strokes].
  - cbn [length] in Hlen.
    destruct (stroke_commits app kind x y moves Htool Hmode) as (s & Hs & Hrun);
      [lia |].
    exists s. split; [exact Hs |]. rewrite Hrun. reflexivity.
  - cbn [length] in Hlen.
    destruct (stroke_collects app kind x y moves Htool Hmode) as (item & Hrun);
      [lia |].
    rewrite Hrun.
    match goal with
    | |- context [run ?a _] =>
        destruct (IH ltac:(discriminate) a eq_refl eq_refl) as (s & Hs & Hrest)
    end.
    + cbn [click_points length]. rewrite length_app. cbn [length]. lia.
    + cbn [click_points shapes centroid_label] in Hs, Hrest.
      exists s. split.
      * rewrite <- app_assoc in Hs. exact Hs.
      * exact Hrest.
Qed.

(** X20: a whole construction session: pressing the tool button of a kind
    and then making as many strokes (press, any drags, release) as the kind
    requires points appends exactly one shape, the one the pressed points
    describe in math coordinates, and leaves no tool, no points, no preview
    and delete mode off; this holds from any state of the application, and
    the drags have no influence on the result. *)
Theorem session_commits_shape (app : CentroidApp) (kind : Tool)
  (strokes : list (Z * Z * list (Z * Z))) :
  length strokes = needed_points kind ->
  exists s,
    committed_shape kind (map stroke_point strokes) = Some s /\
    run app (session_events (Button kind :: map stroke_gesture strokes))
    = redraw_all (mkApp (shapes app ++ [s]) None [] None false
                        (centroid_label app)).
Proof.
  intros Hlen.
  assert (Hne : strokes <> []).
  { intros ->. destruct kind; discriminate Hlen. }
  destruct (strokes_commit kind strokes Hne (activate_shape_tool app kind)
              eq_refl eq_refl) as (s & Hs & Hrun).
  - cbn [activate_shape_tool click_points length]. lia.
  - exists s. split; [exact Hs |].
    unfold session_events. cbn [map concat gesture_events].
    change ([ActivateTool kind] ++ ?l) with (ActivateTool kind :: l).
    cbn [run fold_left handle]. exact Hrun.
Qed.

Lemma session_commits_shape_witness :
  exists s,
    committed_shape Circle
      (map stroke_point [(400, 300, [(405, 300)]); (410, 300, [])]%Z)
    = Some s /\
    run init_app
        (session_events
           (Button Circle
              :: map stroke_gesture
                   [(400, 300, [(405, 300)]); (410, 300, [])]%Z))
    = redraw_all (mkApp (shapes init_app ++ [s]) None [] None false
                        (centroid_label init_app)).
Proof.
  apply (session_commits_shape init_app Circle
           [(400, 300, [(405, 300)]); (410, 300, [])]%Z).
  reflexivity.
Defined.

(** ** No callback raises in an interactive session *)

Lemma run_strict_app (evs1 evs2 : list Event) (app : CentroidApp) :
  run_strict app (evs1 ++ evs2)
  = (run_strict app evs1 ≫= fun app' => run_strict app' evs2).
Proof.
  revert app. induction evs1 as [| ev evs1 IH]; intros app; cbn.
  - reflexivity.
  - destruct (handle_strict app ev) as [app' | e]; cbn; [apply IH | reflexivity].
Qed.

Lemma parse_pairs_inv (parts : list (list (option R))) :
  forall acc points,
    parse_pairs parts acc = inr points ->
    exists new, points = acc ++ new /\ parts = map pair_text new.
Proof.
  induction parts as [| xy parts IH]; intros acc points; cbn [parse_pairs].
  - intros [= <-]. exists []. rewrite app_nil_r. split; reflexivity.
  - destruct xy as [| [x |] [| [y |] [| z more]]]; try discriminate.
    intros Hrest. destruct (IH _ _ Hrest) as (new & -> & ->).
    exists ((x, y) :: new). rewrite <- app_assoc. split; reflexivity.
Qed.

Lemma construct_shape_has_bbox (kind : Tool) (points : list (R * R))
  (s : Shape) :
  construct_shape kind points = Ok s -> has_bbox s.
Proof.
  destruct kind; split_points points; cbn; intros Hs;
    try discriminate Hs; injection Hs as <-; discriminate.
Qed.

(** The strokes while the button is down keep the state of a session. *)
Lemma drags_strict (moves : list (Z * Z)) (app : CentroidApp) :
  run_strict app (map (fun m => Drag m.1 m.2) moves)
  = Ok (run app (map (fun m => Drag m.1 m.2) moves)).
Proof.
  revert app. induction moves as [| m moves IH]; intros app; cbn.
  - reflexivity.
  - apply IH.
Qed.

Lemma release_safe (app : CentroidApp) :
  session_mid app -> Forall has_bbox (shapes app) ->
  exists app',
    on_left_release app = Ok app' /\
    session_ok app' /\ Forall has_bbox (shapes app').
Proof.
  unfold session_mid, session_ok, on_left_release. intros Hmid Hbb.
  destruct (current_tool app) as [kind |] eqn:Htool.
  - destruct (decide _) as [Hlt | Hge].
    + exists app. rewrite Htool. auto.
    + destruct (construct_shape_exact kind (click_points app))
        as (s & _ & Hcode); [lia |].
      rewrite Hcode. eexists. split; [reflexivity |]. cbn.
      split; [exact I |].
      apply Forall_app. split; [exact Hbb |].
      constructor; [eapply construct_shape_has_bbox, Hcode | constructor].
  - exists app. rewrite Htool. auto.
Qed.

Lemma click_safe (app : CentroidApp) (x y : Z) :
  session_ok app -> Forall has_bbox (shapes app) ->
  exists app',
    on_left_click app x y = Ok app' /\
    session_mid app' /\ Forall has_bbox (shapes app').
Proof.
  unfold session_ok, session_mid, on_left_click. intros Hok Hbb.
  destruct (to_math_coords (IZR x) (IZR y)) as [mx my].
  destruct (delete_mode app).
  - destruct (delete_scan_cases mx my app (rev (shapes app)) [])
      as [[_ Hscan] | (pre & s & post & Hrev & _ & _ & Hscan)].
    + rewrite rev_involutive, app_nil_r. reflexivity.
    + apply Forall_rev. exact Hbb.
    + exists app. cbn [length] in Hscan. rewrite Hscan.
      split; [reflexivity |]. split; [| exact Hbb].
      destruct (current_tool app); [lia | exact I].
    + cbn [length] in Hscan. rewrite Hscan. eexists. split; [reflexivity |].
      cbn. rewrite rev_involutive in Hrev. rewrite Hrev in Hbb.
      apply Forall_app in Hbb as [Hpre Hpost].
      apply Forall_cons in Hpost as [_ Hpost]. rewrite app_nil_r.
      split; [| apply Forall_app; split; assumption].
      destruct (current_tool app); [lia | exact I].
  - eexists. split; [reflexivity |]. cbn. split; [| exact Hbb].
    destruct (current_tool app); [| exact I].
    rewrite length_app. cbn [length]. lia.
Qed.

Lemma submit_safe (app : CentroidApp) (input : DialogInput) :
  session_ok app -> Forall has_bbox (shapes app) ->
  session_ok (on_submit app input).1 /\
  Forall has_bbox (shapes (on_submit app input).1).
Proof.
  intros Hok Hbb. unfold on_submit.
  destruct (points_var input) as [n |]; [| auto].
  destruct (decide (n <= 3)%Z); [auto |].
  destruct (decide _) as [| Hlen]; [auto |].
  destruct (parse_pairs (coords_var input) []) as [err | points] eqn:Hparse;
    [auto |].
  cbn. split; [exact Hok |].
  apply Forall_app. split; [exact Hbb |]. constructor; [| constructor].
  destruct (parse_pairs_inv _ _ _ Hparse) as (new & -> & Hparts).
  intros [= Hnil]. cbn in Hnil. subst new.
  rewrite Hparts in Hlen. cbn in Hlen. lia.
Qed.

Lemma gesture_safe (g : Gesture) (app : CentroidApp) :
  session_ok app -> Forall has_bbox (shapes app) ->
  exists app',
    run_strict app (gesture_events g) = Ok app' /\
    session_ok app' /\ Forall has_bbox (shapes app').
Proof.
  intros Hok Hbb.
  destruct g as [x y moves | kind | | | input]; cbn [gesture_events].
  - destruct (click_safe app x y Hok Hbb) as (app1 & Hclick & Hmid & Hbb1).
    cbn [run_strict handle_strict]. rewrite Hclick. cbn.
    rewrite run_strict_app, drags_strict. cbn.
    destruct (run_drags moves app1) as (item & ->).
    destruct (release_safe (with_preview app1 item)) as (app2 & Hrel & Hres);
      [exact Hmid | exact Hbb1 |].
    rewrite Hrel. cbn. exists app2. split; [reflexivity | exact Hres].
  - eexists. split; [reflexivity |]. cbn. split; [| exact Hbb].
    destruct kind; cbn; lia.
  - eexists. split; [reflexivity |]. split; [exact Hok | exact Hbb].
  - eexists. split; [reflexivity |]. split; [exact Hok | exact Hbb].
  - eexists. split; [reflexivity |]. cbn. apply submit_safe; assumption.
Qed.

(** X21: in a session made of tool buttons, the delete button, the
    recalculation button, submissions of the coordinates dialog and whole
    strokes (a press, drags, the release), started with the application,
    no callback ever raises: the tuple unpacking on release always finds
    exactly its points and the hit test never meets a polygon without
    points. *)
Theorem session_never_raises (gs : list Gesture) :
  exists app', run_strict init_app (session_events gs) = Ok app'.
Proof.
  assert (Hgen : forall app,
             session_ok app -> Forall has_bbox (shapes app) ->
             exists app', run_strict app (session_events gs) = Ok app').
  { induction gs as [| g gs IH]; intros app Hok Hbb.
    - exists app. reflexivity.
    - unfold session_events. cbn [map concat]. rewrite run_strict_app.
      destruct (gesture_safe g app Hok Hbb) as (app1 & -> & Hok1 & Hbb1).
      cbn. apply IH; assumption. }
  apply Hgen; [exact I | constructor].
Qed.

(** Without the pairing of press and release the unpacking can fail:
    three presses in a row with the Line tool. *)
Example unpaired_presses_raise :
  run_strict init_app
    [ActivateTool Line; LeftClick 0 0; LeftClick 1 1; LeftClick 2 2;
     LeftRelease]
  = Raise ValueError.
Proof. reflexivity. Qed.

(** ** Outcomes of the coordinates dialog *)

(** X22: the coordinates dialog changes the application only when it
    closes, and then it has appended the polygon of at least four points
    that its two entries spell out; after every error message the
    application is exactly as before. *)
Theorem on_submit_outcomes (app app' : CentroidApp) (input : DialogInput)
  (outcome : DialogOutcome) :
  on_submit app input = (app', outcome) ->
  (outcome = DialogDestroyed /\
   exists points,
     (4 <= length points)%nat /\
     points_var input = Some (Z.of_nat (length points)) /\
     coords_var input = map pair_text points /\
     app' = redraw_all (with_shapes app (shapes app ++ [PolygonShape points])))
  \/ (outcome <> DialogDestroyed /\ app' = app).
Proof.
  unfold on_submit.
  destruct (points_var input) as [n |];
    [| intros [= <- <-]; right; split; [discriminate | reflexivity]].
  destruct (decide (n <= 3)%Z) as [| Hn];
    [intros [= <- <-]; right; split; [discriminate | reflexivity] |].
  destruct (decide _) as [| Hlen];
    [intros [= <- <-]; right; split; [discriminate | reflexivity] |].
  destruct (parse_pairs (coords_var input) []) as [err | points] eqn:Hparse.
  - intros [= <- <-]. right. split; [| reflexivity].
    assert (Herr : forall parts acc e, parse_pairs parts acc = inl e ->
                                       e <> DialogDestroyed).
    { clear. induction parts as [| xy parts IH]; intros acc e; cbn.
      - discriminate.
      - destruct xy as [| [x |] [| [y |] [| z more]]];
          try (intros [= <-]; discriminate).
        apply IH. }
    eapply Herr, Hparse.
  - intros [= <- <-]. left. split; [reflexivity |].
    destruct (parse_pairs_inv _ _ _ Hparse) as (new & Hpoints & Hparts).
    cbn in Hpoints. subst new.
    assert (Hcount : Z.of_nat (length points) = n).
    { destruct (decide (Z.of_nat (length (coords_var input)) = n)) as [He | He];
        [| contradiction].
      rewrite Hparts, length_map in He. exact He. }
    exists points. repeat split.
    + lia.
    + rewrite Hcount. reflexivity.
    + exact Hparts.
Qed.

Lemma on_submit_outcomes_witness :
  (ExpectedPairs 5 1 = DialogDestroyed /\
   exists points,
     (4 <= length points)%nat /\
     points_var (mkDialogInput (Some 5%Z) [[Some 0; Some 0]])
     = Some (Z.of_nat (length points)) /\
     coords_var (mkDialogInput (Some 5%Z) [[Some 0; Some 0]])
     = map pair_text points /\
     init_app
     = redraw_all (with_shapes init_app
                     (shapes init_app ++ [PolygonShape points])))
  \/ (ExpectedPairs 5 1 <> DialogDestroyed /\ init_app = init_app).
Proof.
  apply (on_submit_outcomes init_app init_app
           (mkDialogInput (Some 5%Z) [[Some 0; Some 0]]) (ExpectedPairs 5 1)).
  reflexivity.
Defined.

(** ** More on deletion *)

Lemma hit_contains (mx my : R) (s : Shape) :
  contains mx my s -> hit mx my s = true.
Proof. unfold contains, hit. intros ->. reflexivity. Qed.

Lemma hit_misses (mx my : R) (s : Shape) :
  misses mx my s -> hit mx my s = false.
Proof. unfold misses, hit. intros ->. reflexivity. Qed.

Lemma filter_misses (mx my : R) (l : list Shape) :
  Forall (misses mx my) l ->
  List.filter (hit mx my) l = [] /\
  List.filter (fun s => negb (hit mx my s)) l = l.
Proof.
  induction 1 as [| s l Hs _ [IH1 IH2]]; [split; reflexivity |].
  cbn [List.filter]. rewrite (hit_misses mx my s Hs). cbn [negb].
  rewrite IH1, IH2. split; reflexivity.
Qed.

(** One click in delete mode, in terms of [hit]. *)
Lemma delete_click_step (app : CentroidApp) (x y : Z) :
  delete_mode app = true -> Forall has_bbox (shapes app) ->
  let probe := to_math_coords (IZR x) (IZR y) in
  let app' := handle app (LeftClick x y) in
  delete_mode app' = true /\ Forall has_bbox (shapes app') /\
  List.filter (fun s => negb (hit probe.1 probe.2 s)) (shapes app')
  = List.filter (fun s => negb (hit probe.1 probe.2 s)) (shapes app) /\
  length (List.filter (hit probe.1 probe.2) (shapes app'))
  = pred (length (List.filter (hit probe.1 probe.2) (shapes app))).
Proof.
  intros Hmode Hbb probe app'. subst probe app'.
  cbn [handle]. unfold on_left_click.
  destruct (to_math_coords (IZR x) (IZR y)) as [mx my]. cbn [fst snd].
  rewrite Hmode.
  destruct (delete_scan_cases mx my app (rev (shapes app)) [])
    as [[Hall Hscan] | (pre & s & post & Hrev & Hin & Hpost & Hscan)];
    [rewrite rev_involutive, app_nil_r; reflexivity
    | apply Forall_rev; exact Hbb | |];
    cbn [length] in Hscan; rewrite Hscan; cbn [recover].
  - split; [exact Hmode |]. split; [exact Hbb |]. split; [reflexivity |].
    apply Forall_rev in Hall. rewrite rev_involutive in Hall.
    destruct (filter_misses mx my _ Hall) as [-> _]. reflexivity.
  - rewrite rev_involutive in Hrev. rewrite app_nil_r.
    cbn [redraw_all with_shapes shapes delete_mode]. rewrite Hrev in Hbb |- *.
    apply Forall_app in Hbb as [Hpre Hps].
    apply Forall_cons in Hps as [_ Hps].
    destruct (filter_misses mx my _ Hpost) as [Hf1 Hf2].
    split; [exact Hmode |].
    split; [apply Forall_app; split; assumption |].
    rewrite !List.filter_app. cbn [List.filter].
    rewrite (hit_contains mx my s Hin). cbn [negb].
    split; [reflexivity |].
    rewrite !length_app. cbn [length]. lia.
Qed.

(** X23: in delete mode, clicking at the same place at least as many times
    as there are shapes whose box contains the place removes exactly these
    shapes: what is left is the shapes that do not contain it, in their
    order, and delete mode is still on. *)
Theorem repeated_delete_clears_probe (n : nat) (app : CentroidApp) (x y : Z) :
  delete_mode app = true -> Forall has_bbox (shapes app) ->
  let probe := to_math_coords (IZR x) (IZR y) in
  (length (List.filter (hit probe.1 probe.2) (shapes app)) <= n)%nat ->
  let app' := run app (repeat (LeftClick x y) n) in
  delete_mode app' = true /\
  shapes app'
  = List.filter (fun s => negb (hit probe.1 probe.2 s)) (shapes app).
Proof.
  intros Hmode Hbb probe. revert app Hmode Hbb.
  induction n as [| n IH]; intros app Hmode Hbb Hcount app'; subst app'.
  - cbn [repeat run fold_left]. split; [exact Hmode |].
    assert (Hnone : List.filter (hit probe.1 probe.2) (shapes app) = []).
    { destruct (List.filter _ _); [reflexivity | cbn in Hcount; lia]. }
    clear Hcount Hbb Hmode. induction (shapes app) as [| s l IHl];
      [reflexivity |].
    cbn [List.filter] in Hnone |- *.
    destruct (hit probe.1 probe.2 s); [discriminate |].
    cbn [negb]. f_equal. apply IHl, Hnone.
  - cbn [repeat run fold_left].
    destruct (delete_click_step app x y Hmode Hbb)
      as (Hmode' & Hbb' & Hkeep & Hless).
    fold probe in Hkeep, Hless.
    destruct (IH (handle app (LeftClick x y)) Hmode' Hbb') as [Hm Hs];
      [lia |].
    split; [exact Hm |]. unfold run in Hs. rewrite Hs. exact Hkeep.
Qed.

Lemma filter_hit_bound (mx my : R) (l : list Shape) :
  (length (List.filter (hit mx my) l) <= length l)%nat.
Proof.
  induction l as [| s l IH]; cbn [List.filter length]; [lia |].
  destruct (hit mx my s); cbn [length]; lia.
Qed.

Lemma repeated_delete_clears_probe_witness :
  let app := mkApp [RectangleShape 0 0 10 10; RectangleShape 0 0 20 20]
                   None [] None true None in
  let probe := to_math_coords (IZR 405) (IZR 295) in
  let app' := run app (repeat (LeftClick 405 295) 2) in
  delete_mode app' = true /\
  shapes app'
  = List.filter (fun s => negb (hit probe.1 probe.2 s)) (shapes app).
Proof.
  intros app.
  apply (repeated_delete_clears_probe 2 app 405 295).
  - reflexivity.
  - repeat constructor; discriminate.
  - apply (filter_hit_bound _ _ (shapes app)).
Defined.

Lemma delete_scan_blocked (app : CentroidApp) (mx my : R)
  (above below : list Shape) (i : nat) :
  Forall (misses mx my) above ->
  delete_scan app (above ++ PolygonShape [] :: below) i mx my
  = Raise ValueError.
Proof.
  intros Habove. revert i.
  induction Habove as [| s above Hs _ IH]; intros i; cbn [List.app delete_scan].
  - reflexivity.
  - rewrite Hs. cbn. apply IH.
Qed.

(** X24: a polygon without points (a file can bring one in) blocks the
    deletion of everything below it: in delete mode, a click that misses
    all the shapes inserted after it raises [ValueError] and removes
    nothing, whether or not a shape below contains the click. *)
Theorem empty_polygon_blocks_delete (app : CentroidApp)
  (below above : list Shape) (x y : Z) :
  delete_mode app = true ->
  shapes app = below ++ PolygonShape [] :: above ->
  let probe := to_math_coords (IZR x) (IZR y) in
  Forall (misses probe.1 probe.2) above ->
  on_left_click app x y = Raise ValueError /\
  handle app (LeftClick x y) = app.
Proof.
  intros Hmode Hshapes probe Habove. subst probe.
  cbn [handle]. unfold on_left_click.
  destruct (to_math_coords (IZR x) (IZR y)) as [mx my]. cbn [fst snd] in Habove.
  rewrite Hmode, Hshapes, rev_app_distr. cbn [rev]. rewrite <- app_assoc.
  cbn [List.app].
  rewrite delete_scan_blocked by (apply Forall_rev; exact Habove).
  split; reflexivity.
Qed.

Lemma empty_polygon_blocks_delete_witness :
  let app := mkApp [RectangleShape (-400) 300 400 (-300); PolygonShape []]
                   None [] None true None in
  on_left_click app 400 300 = Raise ValueError /\
  handle app (LeftClick 400 300) = app.
Proof.
  intros app.
  apply (empty_polygon_blocks_delete app
           [RectangleShape (-400) 300 400 (-300)] [] 400 300).
  - reflexivity.
  - reflexivity.
  - constructor.
Defined.

(** ** Preview and final outline *)

(** X25: for each kind built from two points, the dashed preview drawn
    while dragging from the first point to the pointer has the geometry of
    the outline that the shape committed from these two points is drawn
    with; Triangle has no preview. *)
Theorem preview_matches_outline (kind : Tool) (x1 y1 x2 y2 : R) :
  if needs_2_points kind then
    exists item s,
      draw_temporary_shape kind x1 y1 x2 y2 = Some item /\
      construct_shape kind [(x1, y1); (x2, y2)] = Ok s /\
      item_outline item = draw_outline s
  else draw_temporary_shape kind x1 y1 x2 y2 = None.
Proof.
  destruct kind; cbn [needs_2_points];
    try (do 2 eexists; split; [reflexivity | split; reflexivity]).
  reflexivity.
Qed.

(** ** The hit test of a circle *)

(** X26: the hit test of a circle is the test of its box: for every
    circle of positive radius the corner (cx + r, cy + r) of the box passes
    it although it is farther from the centre than the radius. *)
Theorem circle_hit_test_is_coarse (cx cy r : R) :
  0 < r ->
  is_point_inside (CircleShape cx cy r) (cx + r) (cy + r) = Ok true /\
  r < dist (cx, cy) (cx + r, cy + r).
Proof.
  intros Hr. split.
  - unfold is_point_inside. cbn.
    rewrite !bool_decide_eq_true_2; [reflexivity | |]; lra.
  - unfold dist. cbn [fst snd].
    rewrite <- (sqrt_pow2 r) at 1 by lra.
    apply sqrt_lt_1; nra.
Qed.

Lemma circle_hit_test_is_coarse_witness :
  is_point_inside (CircleShape 0 0 1) (0 + 1) (0 + 1) = Ok true /\
  1 < dist (0, 0) (0 + 1, 0 + 1).
Proof. apply (circle_hit_test_is_coarse 0 0 1). lra. Defined.
